(** * The video splitter display of VLC: coordinator and per-part callbacks

    A shallow embedding of [modules/video_output/splitter.c].  The module
    owns a video splitter (the engine), an array [pictures] of output
    frames and an array [parts]; each part has a window, an optional
    display, a semaphore used as a lock and the last size set by the
    window.  Every call that leaves the file (semaphores, mutex, splitter,
    displays, windows) is recorded as an event, so that a function of the
    module is a state transformer that also yields the trace of what it
    did. *)

From stdpp Require Import base list numbers strings.
From Stdlib Require Import ZArith Lia.

Local Open Scope Z_scope.
Local Open Scope nat_scope.

(** ** Data *)

(** Handles stand for the pointers the module only passes around. *)
Definition picture := nat.
Definition display_h := nat.
Definition window_h := nat.
Definition ack_cb := nat.

(** [video_orientation_t]: only [ORIENT_NORMAL] is named in this file. *)
Inductive video_orientation :=
| ORIENT_NORMAL
| ORIENT_OTHER (code : nat).

(** [vlc_window_mouse_event_t], copied by value in the mouse callback. *)
Record mouse_event := MouseEv {
  me_type : nat;
  me_x : Z;
  me_y : Z;
  me_button : Z
}.

(** [struct vlc_vidsplit_part].  [lock] is the value of the semaphore. *)
Record part := Part {
  window : option window_h;
  display : option display_h;
  lock : nat;
  width : N;
  height : N
}.

Definition part_with_display (d : option display_h) (p : part) : part :=
  Part (window p) d (lock p) (width p) (height p).
Definition part_with_window (w : option window_h) (p : part) : part :=
  Part w (display p) (lock p) (width p) (height p).
Definition part_with_lock (l : nat) (p : part) : part :=
  Part (window p) (display p) l (width p) (height p).
Definition part_with_size (w h : N) (p : part) : part :=
  Part (window p) (display p) (lock p) w h.

(** The address of the static [ops] table. *)
Inductive ops_ref := vidsplit_ops.

(** What the outside world sees: one constructor per external call, and one
    per access to a cell of [sys->pictures]. *)
Inductive event :=
| EvPictureHold (pic : picture)
| EvMutexLock
| EvMutexUnlock
| EvFilter (pic : picture)
| EvSlotLoad (i : nat)
| EvSlotStore (i : nat) (v : option picture)
| EvSemInit (i : nat) (v : nat)
| EvSemWait (i : nat)
| EvSemPost (i : nat)
| EvPrepare (i : nat) (d : option display_h) (v : option picture) (date : Z)
| EvDisplay (i : nat) (d : option display_h) (p : picture)
| EvPictureRelease (p : picture)
| EvDisplayDelete (i : nat) (d : display_h)
| EvWindowDisable (i : nat) (w : option window_h)
| EvWindowDelete (i : nat) (w : option window_h)
| EvSetSize (i : nat) (d : display_h) (w h : N)
| EvAck (cb : ack_cb) (i : nat) (w h : N) (seen : part)
| EvMouse (i : nat) (ev : mouse_event)
| EvSendMouseEvent (w : window_h) (ev : mouse_event)
| EvReportKeyPress (w : window_h) (key : N)
| EvObjectCreate (ok : bool)
| EvModuleNeed (name : string) (fmt : video_orientation) (outputs : option nat)
| EvModuleUnneed
| EvFormatClean
| EvObjectDelete
| EvWindowNew (i : nat) (w : option window_h)
| EvWindowEnable (i : nat) (w : window_h) (rc : Z)
| EvDisplayNew (i : nat) (w : window_h) (wd ht : N) (d : option display_h).

(** The display [vd], its [sys], and the mouse events owned by callers. *)
Record state := State {
  vd_ops : option ops_ref;
  vd_source_orientation : video_orientation;
  vd_cfg_window : window_h;
  fmtp_orientation : video_orientation;
  splitter_fmt_orientation : video_orientation;
  i_output : nat;
  sys_lock : bool;
  pictures : list (option picture);
  parts : list part;
  mouse_events : list mouse_event
}.

Definition with_vd_ops (o : option ops_ref) (s : state) : state :=
  State o (vd_source_orientation s) (vd_cfg_window s) (fmtp_orientation s)
        (splitter_fmt_orientation s) (i_output s) (sys_lock s) (pictures s)
        (parts s) (mouse_events s).
Definition with_fmtp_orientation (o : video_orientation) (s : state) : state :=
  State (vd_ops s) (vd_source_orientation s) (vd_cfg_window s) o
        (splitter_fmt_orientation s) (i_output s) (sys_lock s) (pictures s)
        (parts s) (mouse_events s).
Definition with_splitter_fmt_orientation (o : video_orientation) (s : state) : state :=
  State (vd_ops s) (vd_source_orientation s) (vd_cfg_window s)
        (fmtp_orientation s) o (i_output s) (sys_lock s) (pictures s)
        (parts s) (mouse_events s).
Definition with_i_output (n : nat) (s : state) : state :=
  State (vd_ops s) (vd_source_orientation s) (vd_cfg_window s)
        (fmtp_orientation s) (splitter_fmt_orientation s) n (sys_lock s)
        (pictures s) (parts s) (mouse_events s).
Definition with_sys_lock (b : bool) (s : state) : state :=
  State (vd_ops s) (vd_source_orientation s) (vd_cfg_window s)
        (fmtp_orientation s) (splitter_fmt_orientation s) (i_output s) b
        (pictures s) (parts s) (mouse_events s).
Definition with_pictures (l : list (option picture)) (s : state) : state :=
  State (vd_ops s) (vd_source_orientation s) (vd_cfg_window s)
        (fmtp_orientation s) (splitter_fmt_orientation s) (i_output s)
        (sys_lock s) l (parts s) (mouse_events s).
Definition with_parts (l : list part) (s : state) : state :=
  State (vd_ops s) (vd_source_orientation s) (vd_cfg_window s)
        (fmtp_orientation s) (splitter_fmt_orientation s) (i_output s)
        (sys_lock s) (pictures s) l (mouse_events s).

(** ** The monad: state, trace, and the ways a call does not return *)

Inductive stuck :=
| BlockedSem (i : nat)
| BlockedMutex
| OutOfBounds.

Inductive result (A : Type) :=
| Done (a : A) (s : state)
| Stuck (why : stuck) (s : state).
Arguments Done {A} a s.
Arguments Stuck {A} why s.

Definition M (A : Type) : Type := state -> list event * result A.

Definition ret {A} (a : A) : M A := fun s => ([], Done a s).

Definition bind {A B} (m : M A) (f : A -> M B) : M B :=
  fun s =>
    match m s with
    | (t1, Done a s1) =>
        match f a s1 with
        | (t2, r) => (t1 ++ t2, r)
        end
    | (t1, Stuck why s1) => (t1, Stuck why s1)
    end.

Declare Scope splitter_scope.
Delimit Scope splitter_scope with splitter.
Notation "x <- m ;; k" := (bind m (fun x => k))
  (at level 100, m at next level, right associativity) : splitter_scope.
Notation "m ;; k" := (bind m (fun _ => k))
  (at level 100, right associativity) : splitter_scope.
Local Open Scope splitter_scope.

Definition trace_of {A} (m : M A) (s : state) : list event := fst (m s).

Definition emit (e : event) : M unit := fun s => ([e], Done tt s).
Definition get {A} (f : state -> A) : M A := fun s => ([], Done (f s) s).
Definition modify (f : state -> state) : M unit := fun s => ([], Done tt (f s)).
Definition fail {A} (why : stuck) : M A := fun s => ([], Stuck why s).

(** [for (int i = 0; i < n; i++) body(i)] *)
Fixpoint for_from (i n : nat) (body : nat -> M unit) : M unit :=
  match n with
  | O => ret tt
  | S n' => body i ;; for_from (S i) n' body
  end.
Definition for_loop (n : nat) (body : nat -> M unit) : M unit := for_from 0 n body.

(** ** Memory and synchronisation primitives *)

(** [sys->parts[i]]: a read or write past the array does not return. *)
Definition get_part (i : nat) : M part :=
  fun s => match parts s !! i with
           | Some p => ([], Done p s)
           | None => ([], Stuck OutOfBounds s)
           end.
Definition set_part (i : nat) (p : part) : M unit :=
  fun s => if bool_decide (i < length (parts s))
           then ([], Done tt (with_parts (<[i:=p]> (parts s)) s))
           else ([], Stuck OutOfBounds s).

(** [sys->pictures[i]] *)
Definition slot_load (i : nat) : M (option picture) :=
  fun s => match pictures s !! i with
           | Some v => ([EvSlotLoad i], Done v s)
           | None => ([], Stuck OutOfBounds s)
           end.
Definition slot_store (i : nat) (v : option picture) : M unit :=
  fun s => if bool_decide (i < length (pictures s))
           then ([EvSlotStore i v], Done tt (with_pictures (<[i:=v]> (pictures s)) s))
           else ([], Stuck OutOfBounds s).

(** [*e] for a caller's [const vlc_window_mouse_event_t *e] *)
Definition load_mouse_event (e : nat) : M mouse_event :=
  fun s => match mouse_events s !! e with
           | Some ev => ([], Done ev s)
           | None => ([], Stuck OutOfBounds s)
           end.

(** [vlc_sem_wait(&part->lock)]: returns once the value is positive, and
    decrements it. *)
Definition vlc_sem_wait (i : nat) : M unit :=
  p <- get_part i ;;
  match lock p with
  | O => fail (BlockedSem i)
  | S l => set_part i (part_with_lock l p) ;; emit (EvSemWait i)
  end.

(** [vlc_sem_post(&part->lock)] *)
Definition vlc_sem_post (i : nat) : M unit :=
  p <- get_part i ;;
  set_part i (part_with_lock (S (lock p)) p) ;;
  emit (EvSemPost i).

(** [vlc_mutex_lock(&sys->lock)] and [vlc_mutex_unlock(&sys->lock)] *)
Definition vlc_mutex_lock : M unit :=
  held <- get sys_lock ;;
  if held then fail BlockedMutex
  else modify (with_sys_lock true) ;; emit EvMutexLock.
Definition vlc_mutex_unlock : M unit :=
  modify (with_sys_lock false) ;; emit EvMutexUnlock.

(** [VLC_SUCCESS], the value that [== VLC_SUCCESS] and the tests of a
    return code against zero agree on. *)
Definition VLC_SUCCESS : Z := 0%Z.

(** ** The collaborators

    None of them is defined in this file of the source: the splitter, the
    displays of the parts and the window provider are taken as parameters,
    as are the two error codes of [vlc_common.h]. *)
Record collaborators := Collaborators {
  (** [video_splitter_Filter]: return code and the content it leaves in
      the output array. *)
  splitter_Filter : picture -> Z * (nat -> option picture);
  (** [video_splitter_Mouse]: return code and the event as rewritten. *)
  splitter_Mouse : nat -> mouse_event -> Z * mouse_event;
  (** [vout_display_Prepare]: the picture it returns. *)
  display_Prepare : option display_h -> option picture -> Z -> option picture;
  (** environment of [vlc_vidsplit_Open] *)
  VLC_EGENERIC : Z;
  VLC_ENOMEM : Z;
  cfg_IsWindowed : bool;
  var_video_splitter : option string;
  object_create_ok : bool;
  module_need : string -> option nat;
  malloc_pictures_ok : bool;
  malloc_parts_ok : bool;
  malloc_part_content : part;
  malloc_picture_content : option picture;
  window_New : nat -> option window_h;
  window_Enable : nat -> window_h -> Z;
  display_New : nat -> window_h -> N -> N -> option display_h
}.

Section Splitter.

Variable E : collaborators.

Definition video_splitter_Filter (pic : picture) : M Z :=
  emit (EvFilter pic) ;;
  modify (fun s => with_pictures
                     (snd (splitter_Filter E pic) <$> seq 0 (length (pictures s))) s) ;;
  ret (fst (splitter_Filter E pic)).

Definition vout_display_Prepare (i : nat) (d : option display_h)
    (v : option picture) (date : Z) : M (option picture) :=
  emit (EvPrepare i d v date) ;;
  ret (display_Prepare E d v date).

(** ** The render cycle *)

(** The loops test [i < sys->splitter.i_output] at every turn; no body
    below writes [i_output], so the bound is read once. *)
Definition vlc_vidsplit_Prepare (pic : picture) (date : Z) : M unit :=
  emit (EvPictureHold pic) ;;
  vlc_mutex_lock ;;
  rc <- video_splitter_Filter pic ;;
  if negb (rc =? 0)%Z then
    vlc_mutex_unlock ;;
    n <- get i_output ;;
    for_loop n (fun i => slot_store i None)
  else
    vlc_mutex_unlock ;;
    n <- get i_output ;;
    for_loop n (fun i =>
      vlc_sem_wait i ;;
      p <- get_part i ;;
      v <- slot_load i ;;
      v' <- vout_display_Prepare i (display p) v date ;;
      slot_store i v').

(** [sys->pictures[i]] is read for the test and again for the two calls;
    nothing writes it in between and the model reads it once. *)
Definition vlc_vidsplit_Display : M unit :=
  n <- get i_output ;;
  for_loop n (fun i =>
    v <- slot_load i ;;
    match v with
    | Some pic =>
        p <- get_part i ;;
        emit (EvDisplay i (display p) pic) ;;
        emit (EvPictureRelease pic)
    | None => ret tt
    end ;;
    vlc_sem_post i).

(** [vout_display_Control] queries; the three named ones are accepted. *)
Inductive vout_display_query :=
| VOUT_DISPLAY_CHANGE_SOURCE_ASPECT
| VOUT_DISPLAY_CHANGE_SOURCE_CROP
| VOUT_DISPLAY_CHANGE_SOURCE_PLACE
| VOUT_DISPLAY_OTHER_QUERY (code : nat).

Definition vlc_vidsplit_Control (query : vout_display_query) : M Z :=
  match query with
  | VOUT_DISPLAY_CHANGE_SOURCE_ASPECT
  | VOUT_DISPLAY_CHANGE_SOURCE_CROP
  | VOUT_DISPLAY_CHANGE_SOURCE_PLACE => ret VLC_SUCCESS
  | VOUT_DISPLAY_OTHER_QUERY _ => ret (VLC_EGENERIC E)
  end.

(** ** Teardown *)

(** [display = part->display; part->display = NULL;] under the part's
    semaphore, and [vout_display_Delete] after it is posted. *)
Definition take_display (i : nat) : M (option display_h) :=
  vlc_sem_wait i ;;
  p <- get_part i ;;
  set_part i (part_with_display None p) ;;
  vlc_sem_post i ;;
  ret (display p).

Definition delete_display (i : nat) (d : option display_h) : M unit :=
  match d with
  | Some dh => emit (EvDisplayDelete i dh)
  | None => ret tt
  end.

Definition vlc_vidsplit_Close : M unit :=
  n <- get i_output ;;
  for_loop n (fun i =>
    d <- take_display i ;;
    delete_display i d ;;
    p <- get_part i ;;
    emit (EvWindowDisable i (window p)) ;;
    emit (EvWindowDelete i (window p))) ;;
  emit EvModuleUnneed ;;
  emit EvFormatClean ;;
  emit EvObjectDelete.

(** ** Window callbacks; [i] is the part the window's owner points to *)

Definition vlc_vidsplit_window_Resized (i : nat) (w h : N) (cb : option ack_cb) : M unit :=
  vlc_sem_wait i ;;
  p <- get_part i ;;
  set_part i (part_with_size w h p) ;;
  p <- get_part i ;;
  match display p with
  | Some dh => emit (EvSetSize i dh w h)
  | None => ret tt
  end ;;
  match cb with
  | Some f => p <- get_part i ;; emit (EvAck f i w h p)
  | None => ret tt
  end ;;
  vlc_sem_post i.

Definition vlc_vidsplit_window_Closed (i : nat) : M unit :=
  d <- take_display i ;;
  delete_display i d.

(** [e] points into [mouse_events]; [ev = *e] is a local copy. *)
Definition vlc_vidsplit_window_MouseEvent (i : nat) (e : nat) : M unit :=
  ev <- load_mouse_event e ;;
  vlc_mutex_lock ;;
  emit (EvMouse i ev) ;;
  (let (rc, ev') := splitter_Mouse E i ev in
   if (rc =? VLC_SUCCESS)%Z
   then w <- get vd_cfg_window ;; emit (EvSendMouseEvent w ev')
   else ret tt) ;;
  vlc_mutex_unlock.

Definition vlc_vidsplit_window_KeyboardEvent (i : nat) (key : N) : M unit :=
  vlc_mutex_lock ;;
  w <- get vd_cfg_window ;;
  emit (EvReportKeyPress w key) ;;
  vlc_mutex_unlock.

(** ** Construction *)

(** [vout_display_GetDefaultDisplaySize] only computes the size asked of
    the window and has no counterpart here; [sys], the owner of the window,
    is part [i]. *)
Definition video_splitter_CreateWindow (i : nat) : M (option window_h) :=
  emit (EvWindowNew i (window_New E i)) ;;
  match window_New E i with
  | Some wh =>
      emit (EvWindowEnable i wh (window_Enable E i wh)) ;;
      if negb (window_Enable E i wh =? 0)%Z
      then emit (EvWindowDelete i (Some wh)) ;; ret None
      else ret (Some wh)
  | None => ret None
  end.

Definition vlc_sem_init (i : nat) (v : nat) : M unit :=
  p <- get_part i ;;
  set_part i (part_with_lock v p) ;;
  emit (EvSemInit i v).

(** One turn of the loop of [vlc_vidsplit_Open]; [Some rc] is a [return rc]
    from inside the loop. *)
Definition open_part (i : nat) : M (option Z) :=
  vlc_sem_init i 1 ;;
  p <- get_part i ;;
  set_part i (part_with_size 1 1 (part_with_display None p)) ;;
  w <- video_splitter_CreateWindow i ;;
  p <- get_part i ;;
  set_part i (part_with_window w p) ;;
  match w with
  | None =>
      modify (with_i_output i) ;;
      vlc_vidsplit_Close ;;
      ret (Some (VLC_EGENERIC E))
  | Some wh =>
      vlc_sem_wait i ;;
      p <- get_part i ;;
      emit (EvDisplayNew i wh (width p) (height p)
              (display_New E i wh (width p) (height p))) ;;
      match display_New E i wh (width p) (height p) with
      | None =>
          vlc_sem_post i ;;
          p <- get_part i ;;
          emit (EvWindowDisable i (window p)) ;;
          emit (EvWindowDelete i (window p)) ;;
          modify (with_i_output i) ;;
          vlc_vidsplit_Close ;;
          ret (Some (VLC_EGENERIC E))
      | Some dh =>
          p <- get_part i ;;
          set_part i (part_with_display (Some dh) p) ;;
          vlc_sem_post i ;;
          ret None
      end
  end.

(** The loop over the outputs, then [vd->ops = &ops; return VLC_SUCCESS]. *)
Fixpoint open_parts (i n : nat) : M Z :=
  match n with
  | O => modify (with_vd_ops (Some vidsplit_ops)) ;; ret VLC_SUCCESS
  | S n' =>
      r <- open_part i ;;
      match r with
      | Some rc => ret rc
      | None => open_parts (S i) n'
      end
  end.

(** [vlc_object_create] gives [sys]; [vlc_mutex_init] leaves the mutex
    free; [video_format_Copy] copies the orientation of the source with the
    rest of its format; the splitter sets [i_output] when it is loaded;
    the two arrays come from [vlc_obj_malloc], with arbitrary content. *)
Definition vlc_vidsplit_Open : M Z :=
  if cfg_IsWindowed E then ret (VLC_EGENERIC E) else
  match var_video_splitter E with
  | None => ret (VLC_EGENERIC E)
  | Some name =>
      emit (EvObjectCreate (object_create_ok E)) ;;
      if negb (object_create_ok E) then ret (VLC_ENOMEM E) else
      modify (with_sys_lock false) ;;
      src <- get vd_source_orientation ;;
      modify (with_splitter_fmt_orientation src) ;;
      modify (with_splitter_fmt_orientation ORIENT_NORMAL) ;;
      modify (with_fmtp_orientation ORIENT_NORMAL) ;;
      fmt <- get splitter_fmt_orientation ;;
      emit (EvModuleNeed name fmt (module_need E name)) ;;
      match module_need E name with
      | None =>
          emit EvFormatClean ;;
          emit EvObjectDelete ;;
          ret (VLC_EGENERIC E)
      | Some n =>
          modify (with_i_output n) ;;
          modify (with_pictures
                    (if malloc_pictures_ok E
                     then replicate n (malloc_picture_content E) else [])) ;;
          modify (with_parts
                    (if malloc_parts_ok E
                     then replicate n (malloc_part_content E) else [])) ;;
          if negb (malloc_pictures_ok E && malloc_parts_ok E) then
            modify (with_i_output 0) ;;
            vlc_vidsplit_Close ;;
            ret (VLC_ENOMEM E)
          else
            n <- get i_output ;;
            open_parts 0 n
      end
  end.

(** [static const struct vlc_display_operations ops] *)
Record vlc_display_operations := {
  close : M unit;
  prepare : picture -> Z -> M unit;
  display_op : M unit;
  control : vout_display_query -> M Z
}.

Definition ops : vlc_display_operations := {|
  close := vlc_vidsplit_Close;
  prepare := vlc_vidsplit_Prepare;
  display_op := vlc_vidsplit_Display;
  control := vlc_vidsplit_Control
|}.

End Splitter.

(** * Auxiliary definitions for the statements *)

(** ** Concrete collaborators and states used in examples *)

(** A splitter with two outputs whose filter returns [filter_rc] and leaves
    picture [100 + i] in output [i]; windows [10 + i], displays [20 + i]. *)
Definition example_collaborators (filter_rc : Z)
    (prep : option display_h -> option picture -> Z -> option picture) : collaborators :=
  {| splitter_Filter := fun _ => (filter_rc, fun i => Some (100 + i));
     splitter_Mouse := fun i ev =>
       (if (0 <=? me_x ev)%Z then 0%Z else (-1)%Z,
        MouseEv (me_type ev) (me_x ev - 640 * Z.of_nat i)%Z (me_y ev) (me_button ev));
     display_Prepare := prep;
     VLC_EGENERIC := (-1)%Z;
     VLC_ENOMEM := (-2)%Z;
     cfg_IsWindowed := false;
     var_video_splitter := Some "wall"%string;
     object_create_ok := true;
     module_need := fun _ => Some 2;
     malloc_pictures_ok := true;
     malloc_parts_ok := true;
     malloc_part_content := Part None None 7 9%N 9%N;
     malloc_picture_content := None;
     window_New := fun i => Some (10 + i);
     window_Enable := fun _ _ => 0%Z;
     display_New := fun i _ _ _ => Some (20 + i) |}.

Definition prepare_keeps : option display_h -> option picture -> Z -> option picture :=
  fun _ v _ => v.
Definition prepare_drops : option display_h -> option picture -> Z -> option picture :=
  fun _ _ _ => None.

(** A coordinator with the given parts, [pictures] empty, mutex free. *)
Definition example_state (ps : list part) : state :=
  {| vd_ops := Some vidsplit_ops;
     vd_source_orientation := ORIENT_OTHER 3;
     vd_cfg_window := 99;
     fmtp_orientation := ORIENT_NORMAL;
     splitter_fmt_orientation := ORIENT_NORMAL;
     i_output := length ps;
     sys_lock := false;
     pictures := replicate (length ps) None;
     parts := ps;
     mouse_events := [MouseEv 0 700%Z 20%Z 0%Z; MouseEv 0 (-5)%Z 20%Z 0%Z] |}.

Definition two_parts : list part :=
  [Part (Some 10) (Some 20) 1 1%N 1%N; Part (Some 11) (Some 21) 1 1%N 1%N].

(** The state of the display before [vlc_vidsplit_Open]. *)
Definition unopened_state (o : video_orientation) : state :=
  {| vd_ops := None;
     vd_source_orientation := o;
     vd_cfg_window := 99;
     fmtp_orientation := o;
     splitter_fmt_orientation := ORIENT_OTHER 0;
     i_output := 0;
     sys_lock := false;
     pictures := [];
     parts := [];
     mouse_events := [] |}.

(** ** Expected traces *)

(** What [vlc_vidsplit_Close] does for part [j], [look j] being that part
    when the loop reaches it. *)
Definition close_part_trace (look : nat -> option part) (j : nat) : list event :=
  match look j with
  | Some p =>
      [EvSemWait j; EvSemPost j]
        ++ match display p with Some dh => [EvDisplayDelete j dh] | None => [] end
        ++ [EvWindowDisable j (window p); EvWindowDelete j (window p)]
  | None => []
  end.

Definition close_trace (look : nat -> option part) (n : nat) : list event :=
  flat_map (close_part_trace look) (seq 0 n)
    ++ [EvModuleUnneed; EvFormatClean; EvObjectDelete].

(** ** Reading traces *)

(** The displays deleted on behalf of part [i], in order. *)
Definition display_deleted (i : nat) (e : event) : option display_h :=
  match e with
  | EvDisplayDelete j d => if decide (j = i) then Some d else None
  | _ => None
  end.
Definition display_deletes (i : nat) (tr : list event) : list display_h :=
  omap (display_deleted i) tr.

Definition option_list {A} (o : option A) : list A :=
  match o with Some a => [a] | None => [] end.

(** What the success branch of [vlc_vidsplit_Prepare] does for part [j],
    when the filter left [outs j] in slot [j]. *)
Definition prepare_part_trace (E : collaborators) (date : Z) (ps : list part)
    (outs : nat -> option picture) (j : nat) : list event :=
  match ps !! j with
  | Some p =>
      [EvSemWait j; EvSlotLoad j; EvPrepare j (display p) (outs j) date;
       EvSlotStore j (display_Prepare E (display p) (outs j) date)]
  | None => []
  end.

(** The content of slot [j] after the success branch. *)
Definition prepared (E : collaborators) (date : Z) (ps : list part)
    (outs : nat -> option picture) (j : nat) : option picture :=
  display_Prepare E (ps !! j ≫= display) (outs j) date.

(** What [vlc_vidsplit_Display] does for part [j] when slot [j] holds
    [slots j]. *)
Definition display_part_trace (ps : list part) (slots : nat -> option picture)
    (j : nat) : list event :=
  match ps !! j with
  | Some p =>
      [EvSlotLoad j]
        ++ match slots j with
           | Some pic => [EvDisplay j (display p) pic; EvPictureRelease pic]
           | None => []
           end
        ++ [EvSemPost j]
  | None => []
  end.

(** Projections of a trace on the parts concerned by one kind of call. *)
Definition sem_wait_part (e : event) : option nat :=
  match e with EvSemWait j => Some j | _ => None end.
Definition sem_post_part (e : event) : option nat :=
  match e with EvSemPost j => Some j | _ => None end.
Definition prepare_part (e : event) : option nat :=
  match e with EvPrepare j _ _ _ => Some j | _ => None end.
Definition present_part (e : event) : option nat :=
  match e with EvDisplay j _ _ => Some j | _ => None end.

(** Number of events of a trace that satisfy [f]. *)
Fixpoint count_events (f : event -> bool) (tr : list event) : nat :=
  match tr with
  | [] => 0
  | e :: tr' => (if f e then 1 else 0) + count_events f tr'
  end.

Definition is_present_of (i : nat) (e : event) : bool :=
  match e with EvDisplay j _ _ => bool_decide (j = i) | _ => false end.
Definition is_some {A} (o : option A) : bool :=
  match o with Some _ => true | None => false end.

(** All semaphores of the first [n] parts are free. *)
Definition parts_free (n : nat) (s : state) : Prop :=
  forall j, j < n -> exists p, parts s !! j = Some p /\ 0 < lock p.

(** The calls made to the display of part [i], and the operations on its
    semaphore, as they appear in a trace. *)
Definition renderer_call_of (i : nat) (e : event) : option event :=
  match e with
  | EvPrepare j _ _ _ | EvDisplay j _ _ => if decide (j = i) then Some e else None
  | _ => None
  end.
Definition guard_call_of (i : nat) (e : event) : option event :=
  match e with
  | EvSemWait j | EvSemPost j => if decide (j = i) then Some e else None
  | _ => None
  end.

(** ** Holding the mutex *)

(** Events that enter the splitter, and events that read or write
    [sys->pictures] (the filter is handed the array, so it is both). *)
Definition touches_engine (e : event) : bool :=
  match e with
  | EvFilter _ | EvMouse _ _ => true
  | _ => false
  end.
Definition touches_slots (e : event) : bool :=
  match e with
  | EvFilter _ | EvSlotLoad _ | EvSlotStore _ _ => true
  | _ => false
  end.
Definition touches_shared (e : event) : bool :=
  touches_engine e || touches_slots e.

(** Direct reads and writes of a cell of [sys->pictures]. *)
Definition is_slot_access (e : event) : bool :=
  match e with
  | EvSlotLoad _ | EvSlotStore _ _ => true
  | _ => false
  end.

(** [accessed_when want touches held tr]: every event of [tr] selected by
    [touches] happens while the mutex is held (if [want]) or not held (if
    not [want]), [held] telling whether it is held at the start. *)
Fixpoint accessed_when (want : bool) (touches : event -> bool) (held : bool)
    (tr : list event) : bool :=
  match tr with
  | [] => true
  | EvMutexLock :: tr' => accessed_when want touches true tr'
  | EvMutexUnlock :: tr' => accessed_when want touches false tr'
  | e :: tr' =>
      (if touches e then Bool.eqb held want else true)
        && accessed_when want touches held tr'
  end.

Definition guarded_from : (event -> bool) -> bool -> list event -> bool :=
  accessed_when true.
Definition unguarded_from : (event -> bool) -> bool -> list event -> bool :=
  accessed_when false.

Fixpoint held_after (held : bool) (tr : list event) : bool :=
  match tr with
  | [] => held
  | EvMutexLock :: tr' => held_after true tr'
  | EvMutexUnlock :: tr' => held_after false tr'
  | _ :: tr' => held_after held tr'
  end.

Definition is_mutex_event (e : event) : bool :=
  match e with
  | EvMutexLock | EvMutexUnlock => true
  | _ => false
  end.

(** The functions of the module that the core or a window calls. *)
Inductive entry_point :=
| CallOpen
| CallPrepare (pic : picture) (date : Z)
| CallDisplay
| CallControl (query : vout_display_query)
| CallClose
| CallResized (i : nat) (w h : N) (cb : option ack_cb)
| CallClosed (i : nat)
| CallMouseEvent (i e : nat)
| CallKeyboardEvent (i : nat) (key : N).

Definition entry_trace (E : collaborators) (c : entry_point) (s : state) : list event :=
  match c with
  | CallOpen => trace_of (vlc_vidsplit_Open E) s
  | CallPrepare pic date => trace_of (vlc_vidsplit_Prepare E pic date) s
  | CallDisplay => trace_of vlc_vidsplit_Display s
  | CallControl query => trace_of (vlc_vidsplit_Control E query) s
  | CallClose => trace_of vlc_vidsplit_Close s
  | CallResized i w h cb => trace_of (vlc_vidsplit_window_Resized i w h cb) s
  | CallClosed i => trace_of (vlc_vidsplit_window_Closed i) s
  | CallMouseEvent i e => trace_of (vlc_vidsplit_window_MouseEvent E i e) s
  | CallKeyboardEvent i key => trace_of (vlc_vidsplit_window_KeyboardEvent i key) s
  end.

(** ** Construction *)

(** The part that one turn of the loop of [vlc_vidsplit_Open] builds at
    index [i], when the window and the display are both obtained. *)
Definition built_part (E : collaborators) (i : nat) : option part :=
  match window_New E i with
  | Some wh =>
      if (window_Enable E i wh =? 0)%Z then
        match display_New E i wh 1%N 1%N with
        | Some dh => Some (Part (Some wh) (Some dh) 1 1%N 1%N)
        | None => None
        end
      else None
  | None => None
  end.

(** What that turn does before it goes on to the next part or calls
    [vlc_vidsplit_Close]. *)
Definition open_part_trace (E : collaborators) (i : nat) : list event :=
  [EvSemInit i 1; EvWindowNew i (window_New E i)]
    ++ match window_New E i with
       | None => []
       | Some wh =>
           [EvWindowEnable i wh (window_Enable E i wh)]
             ++ if (window_Enable E i wh =? 0)%Z then
                  [EvSemWait i;
                   EvDisplayNew i wh 1%N 1%N (display_New E i wh 1%N 1%N);
                   EvSemPost i]
                    ++ match display_New E i wh 1%N 1%N with
                       | Some _ => []
                       | None => [EvWindowDisable i (Some wh); EvWindowDelete i (Some wh)]
                       end
                else [EvWindowDelete i (Some wh)]
       end.

(** Windows and displays created for, and deleted on behalf of, part [j]. *)
Definition window_created_for (j : nat) (e : event) : option window_h :=
  match e with
  | EvWindowNew i (Some w) => if decide (i = j) then Some w else None
  | _ => None
  end.
Definition window_deleted_for (j : nat) (e : event) : option window_h :=
  match e with
  | EvWindowDelete i (Some w) => if decide (i = j) then Some w else None
  | _ => None
  end.
Definition display_created_for (j : nat) (e : event) : option display_h :=
  match e with
  | EvDisplayNew i _ _ _ (Some d) => if decide (i = j) then Some d else None
  | _ => None
  end.

(** The part an event is about, if any. *)
Definition event_part (e : event) : option nat :=
  match e with
  | EvSlotLoad i | EvSlotStore i _ | EvSemInit i _ | EvSemWait i | EvSemPost i
  | EvPrepare i _ _ _ | EvDisplay i _ _ | EvDisplayDelete i _
  | EvWindowDisable i _ | EvWindowDelete i _ | EvSetSize i _ _ _
  | EvAck _ i _ _ _ | EvMouse i _ | EvWindowNew i _ | EvWindowEnable i _ _
  | EvDisplayNew i _ _ _ _ => Some i
  | _ => None
  end.

(** ** Running on concrete inputs *)

Definition returns {A} (m : M A) (s : state) : bool :=
  match snd (m s) with Done _ _ => true | Stuck _ _ => false end.
Definition state_after {A} (m : M A) (s : state) : state :=
  match snd (m s) with Done _ s' => s' | Stuck _ s' => s' end.

(** Three outputs; the display of output 1 cannot be created. *)
Definition failing_collaborators : collaborators :=
  {| splitter_Filter := fun _ => (0%Z, fun i => Some (100 + i));
     splitter_Mouse := fun i ev => (0%Z, ev);
     display_Prepare := prepare_keeps;
     VLC_EGENERIC := (-1)%Z;
     VLC_ENOMEM := (-2)%Z;
     cfg_IsWindowed := false;
     var_video_splitter := Some "wall"%string;
     object_create_ok := true;
     module_need := fun _ => Some 3;
     malloc_pictures_ok := true;
     malloc_parts_ok := true;
     malloc_part_content := Part None None 7 9%N 9%N;
     malloc_picture_content := None;
     window_New := fun i => Some (10 + i);
     window_Enable := fun _ _ => 0%Z;
     display_New := fun i _ _ _ => if i =? 1 then None else Some (20 + i) |}.

Definition parts_free_b (n : nat) (s : state) : bool :=
  forallb (fun j => match parts s !! j with
                    | Some p => bool_decide (0 < lock p)
                    | None => false
                    end) (seq 0 n).

(** ** Specifications of runs *)

(** ** Total correctness: the call returns, and its trace, value and final
    state satisfy [Q] *)

Definition wp {A} (m : M A) (Q : list event -> A -> state -> Prop) (s : state) : Prop :=
  match m s with
  | (t, Done a s') => Q t a s'
  | (_, Stuck _ _) => False
  end.

Arguments wp : simpl never.
Arguments bind : simpl never.

(** The parts of [s'] are those of [s] with the display of the first [n]
    cleared; nothing else differs. *)
Definition displays_cleared (n : nat) (s s' : state) : Prop :=
  exists ps', s' = with_parts ps' s
    /\ length ps' = length (parts s)
    /\ (forall m, m < n -> ps' !! m = part_with_display None <$> parts s !! m)
    /\ (forall m, n <= m -> ps' !! m = parts s !! m).

(** [gspec want touches h h' m]: started with the mutex in state [h], every
    run of [m], returning or not, touches what [touches] selects only
    while the mutex is in state [want], and a run that returns leaves the
    mutex in state [h']. *)
Definition gspec {A} (want : bool) (touches : event -> bool) (h h' : bool)
    (m : M A) : Prop :=
  forall s,
    accessed_when want touches h (fst (m s)) = true
    /\ (forall a s', snd (m s) = Done a s' -> held_after h (fst (m s)) = h').

(** The first [i] parts are the built ones. *)
Definition built_upto (E : collaborators) (i : nat) (ps : list part) : Prop :=
  forall j, j < i -> is_Some (built_part E j) /\ ps !! j = built_part E j.

(** The loop of [vlc_vidsplit_Open] from index [i], the parts below [i]
    being built: either every turn succeeds and the operations are
    installed, or the first part [k] that cannot be built makes the
    function return [VLC_EGENERIC] after [vlc_vidsplit_Close] has run with
    the count at [k]. *)
Definition open_parts_post (E : collaborators) (i n : nat) (s : state)
    (t : list event) (rc : Z) (s' : state) : Prop :=
  (rc = VLC_SUCCESS
   /\ (forall j, i <= j < i + n -> is_Some (built_part E j))
   /\ t = flat_map (open_part_trace E) (seq i n)
   /\ exists ps',
        s' = with_vd_ops (Some vidsplit_ops) (with_parts ps' s)
        /\ length ps' = i + n /\ built_upto E (i + n) ps')
  \/ (exists k s_mid t_close ps',
        i <= k < i + n
        /\ (forall j, i <= j < k -> is_Some (built_part E j))
        /\ built_part E k = None
        /\ rc = VLC_EGENERIC E
        /\ t = flat_map (open_part_trace E) (seq i (S k - i)) ++ t_close
        /\ i_output s_mid = k
        /\ vlc_vidsplit_Close s_mid = (t_close, Done tt s')
        /\ t_close = close_trace (built_part E) k
        /\ s' = with_parts ps' (with_i_output k s)).

(** The state in which [vlc_vidsplit_Open] loads the splitter, and the one
    in which it enters the loop over [n] outputs. *)
Definition open_setup (s : state) : state :=
  with_fmtp_orientation ORIENT_NORMAL
    (with_splitter_fmt_orientation ORIENT_NORMAL (with_sys_lock false s)).

Definition open_allocated (E : collaborators) (n : nat) (s : state) : state :=
  with_parts (replicate n (malloc_part_content E))
    (with_pictures (replicate n (malloc_picture_content E))
       (with_i_output n (open_setup s))).

(** All the ways [vlc_vidsplit_Open] returns. *)
Definition open_post (E : collaborators) (s : state)
    (t : list event) (rc : Z) (s' : state) : Prop :=
  if cfg_IsWindowed E then rc = VLC_EGENERIC E /\ t = [] /\ s' = s else
  match var_video_splitter E with
  | None => rc = VLC_EGENERIC E /\ t = [] /\ s' = s
  | Some name =>
      if negb (object_create_ok E)
      then rc = VLC_ENOMEM E /\ t = [EvObjectCreate false] /\ s' = s
      else
        match module_need E name with
        | None =>
            rc = VLC_EGENERIC E
            /\ t = [EvObjectCreate true; EvModuleNeed name ORIENT_NORMAL None;
                    EvFormatClean; EvObjectDelete]
            /\ s' = open_setup s
        | Some n =>
            if malloc_pictures_ok E && malloc_parts_ok E then
              exists t_loop,
                t = [EvObjectCreate true; EvModuleNeed name ORIENT_NORMAL (Some n)]
                      ++ t_loop
                /\ open_parts_post E 0 n (open_allocated E n s) t_loop rc s'
            else
              rc = VLC_ENOMEM E
              /\ t = [EvObjectCreate true; EvModuleNeed name ORIENT_NORMAL (Some n);
                      EvModuleUnneed; EvFormatClean; EvObjectDelete]
              /\ exists ps pics,
                   s' = with_parts ps (with_pictures pics (with_i_output 0 (open_setup s)))
        end
  end.


(** * Further definitions: construction, teardown and callbacks on their own *)

(** An environment of [vlc_vidsplit_Open] in which each step can be made to
    fail; windows [10 + i] and displays [20 + i] are always obtained. *)
Definition open_environment (windowed : bool) (name : option string)
    (created : bool) (loaded : option nat) (pictures_ok parts_ok : bool) : collaborators :=
  {| splitter_Filter := fun _ => (0%Z, fun i => Some (100 + i));
     splitter_Mouse := fun i ev => (0%Z, ev);
     display_Prepare := prepare_keeps;
     VLC_EGENERIC := (-1)%Z;
     VLC_ENOMEM := (-2)%Z;
     cfg_IsWindowed := windowed;
     var_video_splitter := name;
     object_create_ok := created;
     module_need := fun _ => loaded;
     malloc_pictures_ok := pictures_ok;
     malloc_parts_ok := parts_ok;
     malloc_part_content := Part None None 7 9%N 9%N;
     malloc_picture_content := None;
     window_New := fun i => Some (10 + i);
     window_Enable := fun _ _ => 0%Z;
     display_New := fun i _ _ _ => Some (20 + i) |}.

(** The events of a trace that are about part [i]. *)
Definition event_of_part (i : nat) (e : event) : option event :=
  match event_part e with
  | Some j => if decide (j = i) then Some e else None
  | None => None
  end.

(** The pictures handed to [vout_display_Display] and to [picture_Release]. *)
Definition presented_picture (e : event) : option picture :=
  match e with EvDisplay _ _ pic => Some pic | _ => None end.
Definition released_picture (e : event) : option picture :=
  match e with EvPictureRelease pic => Some pic | _ => None end.

(** The picture in slot [j], [None] when the slot is NULL or out of the
    array. *)
Definition slot_picture (s : state) (j : nat) : option picture :=
  match pictures s !! j with
  | Some (Some pic) => Some pic
  | _ => None
  end.

(** Whether an entry point returns. *)
Definition entry_returns (E : collaborators) (c : entry_point) (s : state) : bool :=
  match c with
  | CallOpen => returns (vlc_vidsplit_Open E) s
  | CallPrepare pic date => returns (vlc_vidsplit_Prepare E pic date) s
  | CallDisplay => returns vlc_vidsplit_Display s
  | CallControl query => returns (vlc_vidsplit_Control E query) s
  | CallClose => returns vlc_vidsplit_Close s
  | CallResized i w h cb => returns (vlc_vidsplit_window_Resized i w h cb) s
  | CallClosed i => returns (vlc_vidsplit_window_Closed i) s
  | CallMouseEvent i e => returns (vlc_vidsplit_window_MouseEvent E i e) s
  | CallKeyboardEvent i key => returns (vlc_vidsplit_window_KeyboardEvent i key) s
  end.

(** The preamble of every trace of [vlc_vidsplit_Open] that reaches the
    loop over [n] outputs. *)
Definition open_preamble (name : string) (n : nat) : list event :=
  [EvObjectCreate true; EvModuleNeed name ORIENT_NORMAL (Some n)].

(** Operations on the semaphore of a part. *)
Definition is_sem_event (e : event) : bool :=
  match e with
  | EvSemInit _ _ | EvSemWait _ | EvSemPost _ => true
  | _ => false
  end.

(** The state in which an entry point leaves the module, whether it
    returns or stays blocked. *)
Definition entry_state (E : collaborators) (c : entry_point) (s : state) : state :=
  match c with
  | CallOpen => state_after (vlc_vidsplit_Open E) s
  | CallPrepare pic date => state_after (vlc_vidsplit_Prepare E pic date) s
  | CallDisplay => state_after vlc_vidsplit_Display s
  | CallControl query => state_after (vlc_vidsplit_Control E query) s
  | CallClose => state_after vlc_vidsplit_Close s
  | CallResized i w h cb => state_after (vlc_vidsplit_window_Resized i w h cb) s
  | CallClosed i => state_after (vlc_vidsplit_window_Closed i) s
  | CallMouseEvent i e => state_after (vlc_vidsplit_window_MouseEvent E i e) s
  | CallKeyboardEvent i key => state_after (vlc_vidsplit_window_KeyboardEvent i key) s
  end.

(** What construction fixes: the operations, the formats, the window of
    the display, the output count and the lengths of the two arrays,
    together with the mouse events owned by callers. *)
Record coordinator_shape := Shape {
  shape_ops : option ops_ref;
  shape_source : video_orientation;
  shape_window : window_h;
  shape_fmtp : video_orientation;
  shape_splitter_fmt : video_orientation;
  shape_outputs : nat;
  shape_pictures : nat;
  shape_parts : nat;
  shape_mouse_events : list mouse_event
}.

Definition shape_of (s : state) : coordinator_shape :=
  {| shape_ops := vd_ops s;
     shape_source := vd_source_orientation s;
     shape_window := vd_cfg_window s;
     shape_fmtp := fmtp_orientation s;
     shape_splitter_fmt := splitter_fmt_orientation s;
     shape_outputs := i_output s;
     shape_pictures := length (pictures s);
     shape_parts := length (parts s);
     shape_mouse_events := mouse_events s |}.

(** [keeps_shape m]: no run of [m], returning or not, changes the shape. *)
Definition keeps_shape {A} (m : M A) : Prop :=
  forall s, shape_of (state_after m s) = shape_of s.

(** * Reasoning about runs *)

Lemma wp_elim {A} (m : M A) Q s :
  wp m Q s -> exists t a s', m s = (t, Done a s') /\ Q t a s'.
Proof.
  unfold wp. destruct (m s) as [t [a s'|why s']]; [eauto | tauto].
Qed.

Lemma wp_mono {A} (m : M A) (Q Q' : list event -> A -> state -> Prop) s :
  wp m Q s -> (forall t a s', Q t a s' -> Q' t a s') -> wp m Q' s.
Proof.
  unfold wp. destruct (m s) as [t [a s'|why s']]; auto.
Qed.

Lemma wp_ret {A} (a : A) (Q : list event -> A -> state -> Prop) s :
  Q [] a s -> wp (ret a) Q s.
Proof. auto. Qed.

Lemma wp_bind {A B} (m : M A) (f : A -> M B) (Q : list event -> B -> state -> Prop) s :
  wp m (fun t1 a s1 => wp (f a) (fun t2 b s2 => Q (t1 ++ t2) b s2) s1) s ->
  wp (bind m f) Q s.
Proof.
  unfold wp, bind. destruct (m s) as [t1 [a s1|why s1]]; [|tauto].
  destruct (f a s1) as [t2 [b s2|why s2]]; auto.
Qed.

Lemma wp_emit e (Q : list event -> unit -> state -> Prop) s :
  Q [e] tt s -> wp (emit e) Q s.
Proof. auto. Qed.

Lemma wp_get {A} (f : state -> A) (Q : list event -> A -> state -> Prop) s :
  Q [] (f s) s -> wp (get f) Q s.
Proof. auto. Qed.

Lemma wp_modify f (Q : list event -> unit -> state -> Prop) s :
  Q [] tt (f s) -> wp (modify f) Q s.
Proof. auto. Qed.

Lemma wp_get_part i p (Q : list event -> part -> state -> Prop) s :
  parts s !! i = Some p -> Q [] p s -> wp (get_part i) Q s.
Proof. unfold wp, get_part. intros ->. auto. Qed.

Lemma wp_set_part i p (Q : list event -> unit -> state -> Prop) s :
  i < length (parts s) ->
  Q [] tt (with_parts (<[i:=p]> (parts s)) s) ->
  wp (set_part i p) Q s.
Proof.
  unfold wp, set_part. intros Hi HQ. rewrite bool_decide_eq_true_2; auto.
Qed.

Lemma wp_slot_load i v (Q : list event -> option picture -> state -> Prop) s :
  pictures s !! i = Some v -> Q [EvSlotLoad i] v s -> wp (slot_load i) Q s.
Proof. unfold wp, slot_load. intros ->. auto. Qed.

Lemma wp_slot_store i v (Q : list event -> unit -> state -> Prop) s :
  i < length (pictures s) ->
  Q [EvSlotStore i v] tt (with_pictures (<[i:=v]> (pictures s)) s) ->
  wp (slot_store i v) Q s.
Proof.
  unfold wp, slot_store. intros Hi HQ. rewrite bool_decide_eq_true_2; auto.
Qed.

Lemma wp_sem_wait i p l (Q : list event -> unit -> state -> Prop) s :
  parts s !! i = Some p -> lock p = S l ->
  Q [EvSemWait i] tt (with_parts (<[i:=part_with_lock l p]> (parts s)) s) ->
  wp (vlc_sem_wait i) Q s.
Proof.
  intros Hp Hl HQ. unfold vlc_sem_wait.
  apply wp_bind, (wp_get_part i p); [done|]. rewrite Hl.
  apply wp_bind, wp_set_part; [by eapply lookup_lt_Some|].
  by apply wp_emit.
Qed.

Lemma wp_sem_post i p (Q : list event -> unit -> state -> Prop) s :
  parts s !! i = Some p ->
  Q [EvSemPost i] tt (with_parts (<[i:=part_with_lock (S (lock p)) p]> (parts s)) s) ->
  wp (vlc_sem_post i) Q s.
Proof.
  intros Hp HQ. unfold vlc_sem_post.
  apply wp_bind, (wp_get_part i p); [done|].
  apply wp_bind, wp_set_part; [by eapply lookup_lt_Some|].
  by apply wp_emit.
Qed.

Lemma wp_mutex_lock (Q : list event -> unit -> state -> Prop) s :
  sys_lock s = false ->
  Q [EvMutexLock] tt (with_sys_lock true s) ->
  wp vlc_mutex_lock Q s.
Proof.
  intros Hl HQ. unfold vlc_mutex_lock.
  apply wp_bind, wp_get. rewrite Hl.
  apply wp_bind, wp_modify. by apply wp_emit.
Qed.

Lemma wp_mutex_unlock (Q : list event -> unit -> state -> Prop) s :
  Q [EvMutexUnlock] tt (with_sys_lock false s) ->
  wp vlc_mutex_unlock Q s.
Proof.
  intros HQ. unfold vlc_mutex_unlock.
  apply wp_bind, wp_modify. by apply wp_emit.
Qed.

(** A loop, with an invariant over the index, the trace so far and the
    state. *)
Lemma wp_for_from (I : nat -> list event -> state -> Prop) body n :
  forall i t0 s,
  I i t0 s ->
  (forall j t s1, i <= j < i + n -> I j t s1 ->
     wp (body j) (fun t2 _ s2 => I (S j) (t ++ t2) s2) s1) ->
  wp (for_from i n body) (fun t _ s' => I (i + n) (t0 ++ t) s') s.
Proof.
  induction n as [|n IH]; intros i t0 s HI Hbody; simpl.
  - apply wp_ret. by rewrite Nat.add_0_r, app_nil_r.
  - apply wp_bind.
    eapply wp_mono; [apply (Hbody i t0 s); [lia | done]|].
    intros t1 u1 s1 H1. simpl in H1.
    eapply wp_mono.
    + apply (IH (S i) (t0 ++ t1) s1 H1). intros j t s2 Hj. apply Hbody. lia.
    + intros t2 u2 s2 H2. simpl in H2.
      by rewrite Nat.add_succ_r, app_assoc.
Qed.

Lemma wp_for_loop (I : nat -> list event -> state -> Prop) body n s :
  I 0 [] s ->
  (forall j t s1, j < n -> I j t s1 ->
     wp (body j) (fun t2 _ s2 => I (S j) (t ++ t2) s2) s1) ->
  wp (for_loop n body) (fun t _ s' => I n t s') s.
Proof.
  intros H0 Hbody. unfold for_loop.
  apply (wp_for_from I body n 0 [] s H0).
  intros j t s1 Hj. apply Hbody. lia.
Qed.

Lemma wp_load_mouse_event e ev (Q : list event -> mouse_event -> state -> Prop) s :
  mouse_events s !! e = Some ev -> Q [] ev s -> wp (load_mouse_event e) Q s.
Proof. unfold wp, load_mouse_event. intros ->. auto. Qed.

Ltac len :=
  cbn [parts pictures with_parts with_pictures]; rewrite ?length_insert, ?length_replicate, ?length_fmap, ?length_seq;
  first [eassumption | lia].
Ltac lookup :=
  cbn [parts pictures with_parts with_pictures];
  first [ eassumption
        | apply list_lookup_insert_eq; len
        | rewrite list_lookup_insert_ne by lia; lookup ].

(** Symbolic execution of straight-line code. *)
Ltac wp_step :=
  lazymatch goal with
  | |- wp (bind _ _) _ _ => apply wp_bind
  | |- wp (ret _) _ _ => apply wp_ret
  | |- wp (emit _) _ _ => apply wp_emit
  | |- wp (get _) _ _ => apply wp_get
  | |- wp (modify _) _ _ => apply wp_modify
  | |- wp (get_part _) _ _ => eapply wp_get_part; [lookup|]
  | |- wp (set_part _ _) _ _ => apply wp_set_part; [len|]
  | |- wp (vlc_sem_wait _) _ _ => eapply wp_sem_wait; [lookup | reflexivity |]
  | |- wp (vlc_sem_post _) _ _ => eapply wp_sem_post; [lookup|]
  | |- wp vlc_mutex_lock _ _ =>
      apply wp_mutex_lock; [simpl; first [eassumption | reflexivity]|]
  | |- wp vlc_mutex_unlock _ _ => apply wp_mutex_unlock
  | |- wp (load_mouse_event _) _ _ => eapply wp_load_mouse_event; [simpl; eassumption|]
  end.
Ltac st_simpl :=
  cbn [vd_ops vd_source_orientation vd_cfg_window fmtp_orientation
       splitter_fmt_orientation i_output sys_lock pictures parts mouse_events
       with_vd_ops with_fmtp_orientation with_splitter_fmt_orientation
       with_i_output with_sys_lock with_pictures with_parts
       window display lock width height
       part_with_display part_with_window part_with_lock part_with_size
       fst snd negb andb].
Ltac wp_go := repeat (wp_step; st_simpl).

Lemma wp_run_unit (m : M unit) (T : list event) (P : state -> Prop) s :
  wp m (fun t _ s' => t = T /\ P s') s ->
  exists s', m s = (T, Done tt s') /\ P s'.
Proof.
  intros H. apply wp_elim in H as (t & [] & s' & Hrun & -> & HP). eauto.
Qed.

(** ** Projections of a loop's trace *)

Lemma flat_map_seq_S {A} (f : nat -> list A) n :
  flat_map f (seq 0 (S n)) = flat_map f (seq 0 n) ++ f n.
Proof.
  rewrite seq_S, flat_map_app. simpl. by rewrite app_nil_r.
Qed.

Lemma flat_map_seq_ext {A} (f g : nat -> list A) n :
  (forall j, j < n -> f j = g j) ->
  flat_map f (seq 0 n) = flat_map g (seq 0 n).
Proof.
  induction n as [|n IH]; intros H; [done|].
  rewrite !flat_map_seq_S, IH, H; auto.
Qed.

Lemma flat_map_seq_singleton n : flat_map (fun j => [j]) (seq 0 n) = seq 0 n.
Proof.
  induction n as [|n IH]; [done|]. by rewrite flat_map_seq_S, IH, seq_S.
Qed.

Lemma flat_map_seq_nil {A} n : flat_map (fun _ : nat => @nil A) (seq 0 n) = [].
Proof. induction n as [|n IH]; [done|]. by rewrite flat_map_seq_S, IH. Qed.

Lemma flat_map_seq_filter (P : nat -> bool) n :
  flat_map (fun j => if P j then [j] else []) (seq 0 n) = List.filter P (seq 0 n).
Proof.
  induction n as [|n IH]; [done|].
  rewrite flat_map_seq_S, IH, seq_S, List.filter_app. simpl.
  by destruct (P n).
Qed.

Lemma omap_flat_map_seq {A} (f : event -> option A) (g : nat -> list event) n :
  omap f (flat_map g (seq 0 n)) = flat_map (fun j => omap f (g j)) (seq 0 n).
Proof.
  induction n as [|n IH]; [done|]. by rewrite !flat_map_seq_S, omap_app, IH.
Qed.

(** Only the turn for part [i] contributes to a projection on part [i]. *)
Lemma omap_flat_map_seq_at {A} (f : event -> option A) (g : nat -> list event) n i :
  (forall j, j <> i -> omap f (g j) = []) -> i < n ->
  omap f (flat_map g (seq 0 n)) = omap f (g i).
Proof.
  intros Hother. induction n as [|n IH]; intros Hi; [lia|].
  rewrite flat_map_seq_S, omap_app.
  destruct (decide (i = n)) as [->|Hne].
  - rewrite omap_flat_map_seq.
    rewrite (flat_map_seq_ext _ (fun _ => [])), flat_map_seq_nil; [done|].
    intros j Hj. apply Hother. lia.
  - rewrite IH by lia. rewrite (Hother n) by done. by rewrite app_nil_r.
Qed.

(** ** Runs that stop at a semaphore *)

Lemma bind_stuck {A B} (m : M A) (f : A -> M B) s t why s1 :
  m s = (t, Stuck why s1) -> bind m f s = (t, Stuck why s1).
Proof. unfold bind. by intros ->. Qed.

Lemma bind_silent {A B} (m : M A) (f : A -> M B) s a :
  m s = ([], Done a s) -> bind m f s = f a s.
Proof. unfold bind. intros ->. by destruct (f a s). Qed.

Lemma sem_wait_blocked i p s :
  parts s !! i = Some p -> lock p = 0 ->
  vlc_sem_wait i s = ([], Stuck (BlockedSem i) s).
Proof.
  intros Hp Hl. unfold vlc_sem_wait.
  rewrite (bind_silent _ _ s p) by (unfold get_part; by rewrite Hp).
  by rewrite Hl.
Qed.

(** * Window callbacks *)

(** C7.  The resize callback works under the part's semaphore only.
    Entered with the semaphore free, it waits on it, stores the new size,
    resizes the display exactly when one is bound, calls the
    acknowledgement (when given) before the semaphore is posted, and the
    acknowledgement sees the part with the new size and the semaphore
    taken.  Entered with the semaphore taken, it does not return and has
    done nothing: no size is stored, no display is resized and no
    acknowledgement is made before the wait. *)
Theorem Resized_applies_size_under_guard
    (s : state) (i : nat) (p : part) (w h : N) (cb : option ack_cb) :
  parts s !! i = Some p ->
  (0 < lock p ->
   exists s',
     vlc_vidsplit_window_Resized i w h cb s =
       ([EvSemWait i]
          ++ match display p with Some dh => [EvSetSize i dh w h] | None => [] end
          ++ match cb with
             | Some f =>
                 [EvAck f i w h (Part (window p) (display p) (pred (lock p)) w h)]
             | None => []
             end
          ++ [EvSemPost i],
        Done tt s')
     /\ parts s' !! i = Some (Part (window p) (display p) (lock p) w h)
     /\ (forall j, j <> i -> parts s' !! j = parts s !! j))
  /\ (lock p = 0 ->
      vlc_vidsplit_window_Resized i w h cb s = ([], Stuck (BlockedSem i) s)).
Proof.
  intros Hp. split; intros Hl.
  - assert (Hi : i < length (parts s)) by (by eapply lookup_lt_Some).
    destruct p as [pw pd pl pwd pht]; simpl in *. destruct pl as [|l]; [lia|].
    apply wp_run_unit. unfold vlc_vidsplit_window_Resized.
    destruct pd as [dh|], cb as [f|]; wp_go; simpl;
      (split; [reflexivity|]); (split; [by lookup|]);
      intros j Hj; by rewrite !list_lookup_insert_ne.
  - unfold vlc_vidsplit_window_Resized. apply bind_stuck.
    by apply (sem_wait_blocked i p).
Qed.

(** C8.  The mouse callback works on a copy of the caller's event: the
    caller's event (and the rest of the state) is as before, the splitter
    is given the copy, and what it made of the copy is sent to the window
    of the display exactly when it returned [VLC_SUCCESS]. *)
Theorem MouseEvent_forwards_private_copy
    (E : collaborators) (s : state) (i e : nat) (ev : mouse_event) :
  mouse_events s !! e = Some ev -> sys_lock s = false ->
  exists s',
    vlc_vidsplit_window_MouseEvent E i e s =
      ([EvMutexLock; EvMouse i ev]
         ++ (if (fst (splitter_Mouse E i ev) =? VLC_SUCCESS)%Z
             then [EvSendMouseEvent (vd_cfg_window s) (snd (splitter_Mouse E i ev))]
             else [])
         ++ [EvMutexUnlock],
       Done tt s')
    /\ mouse_events s' !! e = Some ev
    /\ s' = s.
Proof.
  intros He Hl. apply wp_run_unit. unfold vlc_vidsplit_window_MouseEvent.
  destruct s as [o so cw fo sfo n l pics ps evs]; simpl in *; subst l.
  destruct (splitter_Mouse E i ev) as [rc ev'] eqn:Hm; simpl.
  destruct (rc =? VLC_SUCCESS)%Z eqn:Hrc; wp_go; rewrite ?Hm; simpl; rewrite ?Hrc;
    wp_go; auto.
Qed.

(** * Teardown *)

Lemma with_parts_same s : with_parts (parts s) s = s.
Proof. by destruct s. Qed.

Lemma wp_Close s n :
  i_output s = n ->
  (forall j, j < n -> exists p, parts s !! j = Some p /\ 0 < lock p) ->
  wp vlc_vidsplit_Close
     (fun t _ s' => t = close_trace (fun j => parts s !! j) n /\ displays_cleared n s s') s.
Proof.
  intros Hn Hfree. unfold vlc_vidsplit_Close.
  apply wp_bind, wp_get. rewrite Hn. apply wp_bind.
  eapply wp_mono.
  - apply (wp_for_loop
      (fun j t s1 => t = flat_map (close_part_trace (fun j => parts s !! j)) (seq 0 j)
                     /\ j <= n /\ displays_cleared j s s1)).
    + split; [done|]. split; [lia|]. exists (parts s).
      rewrite with_parts_same. repeat split; auto. intros m Hm; lia.
    + intros j t s1 Hj (-> & _ & ps1 & -> & Hlen & Hlt & Hge).
      destruct (Hfree j Hj) as ([pw pd pl pwd pht] & Hp & Hl).
      simpl in Hl. destruct pl as [|l]; [lia|].
      assert (Hp1 : ps1 !! j = Some (Part pw pd (S l) pwd pht))
        by (by rewrite Hge, Hp).
      assert (Hj1 : j < length ps1) by (by eapply lookup_lt_Some).
      unfold take_display, delete_display.
      destruct pd as [dh|]; wp_go;
        (split; [rewrite flat_map_seq_S; f_equal; unfold close_part_trace;
                 by rewrite Hp|]);
        (split; [lia|]); eexists; (split; [reflexivity|]);
        (split; [len|]);
        (split; [intros m Hm; destruct (decide (m = j)) as [->|Hne];
                 [rewrite Hp; by lookup
                 |rewrite !list_lookup_insert_ne by done; apply Hlt; lia]
                |intros m Hm; rewrite !list_lookup_insert_ne by lia;
                 apply Hge; lia]).
  - intros t u s1 (-> & _ & Hc). wp_go. split; [|done].
    unfold close_trace. simpl. by rewrite ?app_nil_r.
Qed.

Lemma display_deletes_app i t1 t2 :
  display_deletes i (t1 ++ t2) = display_deletes i t1 ++ display_deletes i t2.
Proof. apply omap_app. Qed.

Lemma display_deletes_close_part look i j :
  display_deletes i (close_part_trace look j) =
    if decide (j = i) then option_list (look i ≫= display) else [].
Proof.
  unfold close_part_trace.
  destruct (decide (j = i)) as [->|Hne].
  - destruct (look i) as [p|]; [|done]. simpl.
    destruct (display p); simpl; by rewrite ?decide_True.
  - destruct (look j) as [p|]; [|done]. simpl.
    destruct (display p); simpl; by rewrite ?decide_False.
Qed.

Lemma display_deletes_close look n i :
  display_deletes i (close_trace look n) =
    if decide (i < n) then option_list (look i ≫= display) else [].
Proof.
  unfold close_trace. rewrite display_deletes_app. simpl. rewrite app_nil_r.
  induction n as [|n IH].
  - case_decide; [lia|done].
  - rewrite flat_map_seq_S, display_deletes_app, IH, display_deletes_close_part.
    repeat case_decide; subst; try lia; by rewrite ?app_nil_r.
Qed.

Lemma wp_Closed s i p :
  parts s !! i = Some p -> 0 < lock p ->
  wp (vlc_vidsplit_window_Closed i)
     (fun t _ s' =>
        t = [EvSemWait i; EvSemPost i]
              ++ match display p with Some dh => [EvDisplayDelete i dh] | None => [] end
        /\ s' = with_parts (<[i:=part_with_display None p]> (parts s)) s) s.
Proof.
  intros Hp Hl. destruct p as [pw pd pl pwd pht]. simpl in Hl.
  destruct pl as [|l]; [lia|].
  assert (Hi : i < length (parts s)) by (by eapply lookup_lt_Some).
  unfold vlc_vidsplit_window_Closed, take_display, delete_display.
  destruct pd as [dh|]; wp_go; (split; [done|]);
    by rewrite !list_insert_insert_eq.
Qed.

(** C6.  The close callback of part [i] followed by teardown: the callback
    takes the display under the semaphore and deletes it after posting;
    teardown then finds the display of part [i] empty and deletes nothing
    for it, so over both the display of part [i] is deleted once if it was
    bound and never otherwise. *)
Theorem Closed_then_Close_deletes_display_once (s : state) (i : nat) (p : part) :
  parts s !! i = Some p -> 0 < lock p ->
  (forall j, j < i_output s -> exists q, parts s !! j = Some q /\ 0 < lock q) ->
  exists t1 s1 t2 s2,
    vlc_vidsplit_window_Closed i s = (t1, Done tt s1)
    /\ vlc_vidsplit_Close s1 = (t2, Done tt s2)
    /\ t1 = [EvSemWait i; EvSemPost i]
              ++ match display p with Some dh => [EvDisplayDelete i dh] | None => [] end
    /\ parts s1 !! i = Some (part_with_display None p)
    /\ display_deletes i t2 = []
    /\ display_deletes i (t1 ++ t2) = option_list (display p).
Proof.
  intros Hp Hl Hfree.
  assert (Hi : i < length (parts s)) by (by eapply lookup_lt_Some).
  destruct (wp_elim _ _ _ (wp_Closed s i p Hp Hl)) as (t1 & [] & s1 & Hrun1 & Ht1 & Hs1).
  assert (Hp1 : parts s1 !! i = Some (part_with_display None p)).
  { rewrite Hs1. by lookup. }
  assert (Hfree1 : forall j, j < i_output s -> exists q, parts s1 !! j = Some q /\ 0 < lock q).
  { intros j Hj. destruct (decide (j = i)) as [->|Hne].
    - eexists. split; [exact Hp1|]. by destruct p.
    - rewrite Hs1. simpl. rewrite list_lookup_insert_ne by done. by apply Hfree. }
  assert (Hn1 : i_output s1 = i_output s) by (by rewrite Hs1).
  destruct (wp_elim _ _ _ (wp_Close s1 (i_output s) Hn1 Hfree1))
    as (t2 & [] & s2 & Hrun2 & Ht2 & _).
  assert (Hd2 : display_deletes i t2 = []).
  { rewrite Ht2, display_deletes_close, Hp1. simpl. by destruct (decide _). }
  exists t1, s1, t2, s2. repeat split; try done.
  rewrite display_deletes_app, Hd2, app_nil_r, Ht1.
  destruct (display p); simpl; by rewrite ?decide_True.
Qed.

(** * The render cycle *)

(** The success branch of [vlc_vidsplit_Prepare]. *)
Lemma wp_Prepare_success (E : collaborators) pic date s n :
  i_output s = n -> length (pictures s) = n -> sys_lock s = false ->
  fst (splitter_Filter E pic) = 0%Z ->
  parts_free n s ->
  let outs := snd (splitter_Filter E pic) in
  wp (vlc_vidsplit_Prepare E pic date)
     (fun t _ s' =>
        t = [EvPictureHold pic; EvMutexLock; EvFilter pic; EvMutexUnlock]
              ++ flat_map (prepare_part_trace E date (parts s) outs) (seq 0 n)
        /\ exists ps' pics',
             s' = with_pictures pics' (with_parts ps' s)
             /\ length ps' = length (parts s) /\ length pics' = n
             /\ (forall m p, m < n -> parts s !! m = Some p ->
                   ps' !! m = Some (part_with_lock (pred (lock p)) p))
             /\ (forall m, n <= m -> ps' !! m = parts s !! m)
             /\ (forall m, m < n -> pics' !! m = Some (prepared E date (parts s) outs m)))
     s.
Proof.
  intros Hn Hlen Hlock Hrc Hfree outs.
  unfold vlc_vidsplit_Prepare, video_splitter_Filter.
  wp_go. rewrite Hrc. cbn [Z.eqb negb]. wp_go. rewrite Hn, Hlen.
  fold outs.
  eapply wp_mono.
  - apply (wp_for_loop
      (fun j t s1 =>
         t = flat_map (prepare_part_trace E date (parts s) outs) (seq 0 j)
         /\ j <= n
         /\ exists ps1 pics1,
              s1 = with_pictures pics1 (with_parts ps1 s)
              /\ length ps1 = length (parts s) /\ length pics1 = n
              /\ (forall m p, m < j -> parts s !! m = Some p ->
                    ps1 !! m = Some (part_with_lock (pred (lock p)) p))
              /\ (forall m, j <= m -> ps1 !! m = parts s !! m)
              /\ (forall m, m < j -> pics1 !! m = Some (prepared E date (parts s) outs m))
              /\ (forall m, j <= m -> m < n -> pics1 !! m = Some (outs m)))).
    + split; [done|]. split; [lia|].
      exists (parts s), (outs <$> seq 0 n).
      split; [by destruct s; simpl in *; subst|].
      split; [done|]. split; [by rewrite length_fmap, length_seq|].
      split; [intros; lia|]. split; [done|]. split; [intros; lia|].
      intros m _ Hm. by rewrite list_lookup_fmap, lookup_seq_lt.
    + intros j t s1 Hj (-> & _ & ps1 & pics1 & -> & Hl1 & Hl2 & Hlt & Hge & Hplt & Hpge).
      destruct (Hfree j Hj) as ([pw pd pl pwd pht] & Hp & Hl).
      simpl in Hl. destruct pl as [|l]; [lia|].
      assert (Hp1 : ps1 !! j = Some (Part pw pd (S l) pwd pht))
        by (by rewrite Hge, Hp).
      assert (Hj1 : j < length ps1) by (by eapply lookup_lt_Some).
      assert (Hv : pics1 !! j = Some (outs j)) by (apply Hpge; lia).
      assert (Hj2 : j < length pics1) by lia.
      wp_go. eapply wp_slot_load; [exact Hv|].
      unfold vout_display_Prepare. wp_go.
      apply wp_slot_store; [len|]. st_simpl.
      split; [rewrite flat_map_seq_S; f_equal; unfold prepare_part_trace;
              by rewrite Hp|].
      split; [lia|].
      exists (<[j:=Part pw pd l pwd pht]> ps1),
             (<[j:=display_Prepare E pd (outs j) date]> pics1).
      split; [reflexivity|].
      split; [len|]. split; [len|].
      split; [|split; [|split]].
      * intros m p Hm Hpm. destruct (decide (m = j)) as [->|Hne].
        -- rewrite Hp in Hpm. injection Hpm as <-. by lookup.
        -- rewrite list_lookup_insert_ne by done. apply Hlt; [lia|done].
      * intros m Hm. rewrite list_lookup_insert_ne by lia. apply Hge; lia.
      * intros m Hm. destruct (decide (m = j)) as [->|Hne].
        -- unfold prepared. rewrite Hp. by lookup.
        -- rewrite list_lookup_insert_ne by done. apply Hplt; lia.
      * intros m Hm Hmn. rewrite list_lookup_insert_ne by lia. apply Hpge; lia.
  - intros t u s1 (-> & _ & ps1 & pics1 & -> & Hl1 & Hl2 & Hlt & Hge & Hplt & _).
    split; [by rewrite ?app_nil_r|]. exists ps1, pics1. repeat split; auto.
Qed.

Lemma wp_Display s n (slots : nat -> option picture) :
  i_output s = n ->
  (forall j, j < n -> pictures s !! j = Some (slots j)) ->
  (forall j, j < n -> is_Some (parts s !! j)) ->
  wp vlc_vidsplit_Display
     (fun t _ s' =>
        t = flat_map (display_part_trace (parts s) slots) (seq 0 n)
        /\ exists ps',
             s' = with_parts ps' s
             /\ length ps' = length (parts s)
             /\ (forall m p, m < n -> parts s !! m = Some p ->
                   ps' !! m = Some (part_with_lock (S (lock p)) p))
             /\ (forall m, n <= m -> ps' !! m = parts s !! m))
     s.
Proof.
  intros Hn Hslots Hparts. unfold vlc_vidsplit_Display.
  wp_go. rewrite Hn.
  eapply wp_mono.
  - apply (wp_for_loop
      (fun j t s1 =>
         t = flat_map (display_part_trace (parts s) slots) (seq 0 j)
         /\ j <= n
         /\ exists ps1,
              s1 = with_parts ps1 s
              /\ length ps1 = length (parts s)
              /\ (forall m p, m < j -> parts s !! m = Some p ->
                    ps1 !! m = Some (part_with_lock (S (lock p)) p))
              /\ (forall m, j <= m -> ps1 !! m = parts s !! m))).
    + split; [done|]. split; [lia|]. exists (parts s).
      split; [by rewrite with_parts_same|]. split; [done|].
      split; [intros; lia | done].
    + intros j t s1 Hj (-> & _ & ps1 & -> & Hl1 & Hlt & Hge).
      destruct (Hparts j Hj) as [[pw pd pl pwd pht] Hp].
      assert (Hp1 : ps1 !! j = Some (Part pw pd pl pwd pht)) by (by rewrite Hge, Hp).
      assert (Hj1 : j < length ps1) by (by eapply lookup_lt_Some).
      pose proof (Hslots j Hj) as Hv.
      wp_go. eapply wp_slot_load; [exact Hv|].
      destruct (slots j) as [pic|] eqn:Hs; wp_go;
        (split; [rewrite flat_map_seq_S; f_equal; unfold display_part_trace;
                 by rewrite Hp, Hs|]);
        (split; [lia|]);
        exists (<[j:=Part pw pd (S pl) pwd pht]> ps1);
        (split; [reflexivity|]); (split; [len|]);
        (split; [intros m p Hm Hpm; destruct (decide (m = j)) as [->|Hne];
                 [rewrite Hp in Hpm; injection Hpm as <-; by lookup
                 |rewrite list_lookup_insert_ne by done; apply Hlt; [lia|done]]
                |intros m Hm; rewrite list_lookup_insert_ne by lia; apply Hge; lia]).
  - intros t u s1 (-> & _ & ps1 & -> & H). split; [done|]. by exists ps1.
Qed.

Lemma renderer_calls_prepare_other E date ps outs i j :
  j <> i -> omap (renderer_call_of i) (prepare_part_trace E date ps outs j) = [].
Proof.
  intros Hne. unfold prepare_part_trace. destruct (ps !! j); [|done].
  simpl. by rewrite decide_False.
Qed.

Lemma renderer_calls_display_other ps slots i j :
  j <> i -> omap (renderer_call_of i) (display_part_trace ps slots j) = [].
Proof.
  intros Hne. unfold display_part_trace. destruct (ps !! j); [|done].
  destruct (slots j); simpl; by rewrite ?decide_False.
Qed.

Lemma guard_calls_prepare_other E date ps outs i j :
  j <> i -> omap (guard_call_of i) (prepare_part_trace E date ps outs j) = [].
Proof.
  intros Hne. unfold prepare_part_trace. destruct (ps !! j); [|done].
  simpl. by rewrite decide_False.
Qed.

Lemma guard_calls_display_other ps slots i j :
  j <> i -> omap (guard_call_of i) (display_part_trace ps slots j) = [].
Proof.
  intros Hne. unfold display_part_trace. destruct (ps !! j); [|done].
  destruct (slots j); simpl; by rewrite ?decide_False.
Qed.

(** C5, as the code has it.  In a cycle whose filter succeeds, entered with
    the mutex and the semaphores of the parts free: both phases return; a
    part with a bound display gets one prepare call, followed by one
    present call when the picture returned by prepare is not NULL and by
    none when it is NULL; prepare calls are made in the first phase in
    index order and present calls in the second in index order; the
    semaphore of each part is waited on once, in the first phase, and
    posted once, in the second, and ends at its initial value. *)
Theorem render_cycle_success
    (E : collaborators) (pic : picture) (date : Z) (s : state) (n : nat) :
  i_output s = n -> length (pictures s) = n -> sys_lock s = false ->
  fst (splitter_Filter E pic) = 0%Z ->
  parts_free n s ->
  let outs := snd (splitter_Filter E pic) in
  let slots := prepared E date (parts s) outs in
  exists t1 s1 t2 s2,
    vlc_vidsplit_Prepare E pic date s = (t1, Done tt s1)
    /\ vlc_vidsplit_Display s1 = (t2, Done tt s2)
    /\ (forall i p d, i < n -> parts s !! i = Some p -> display p = Some d ->
          omap (renderer_call_of i) (t1 ++ t2) =
            [EvPrepare i (Some d) (outs i) date]
              ++ match slots i with
                 | Some f => [EvDisplay i (Some d) f]
                 | None => []
                 end)
    /\ omap prepare_part t1 = seq 0 n
    /\ omap prepare_part t2 = []
    /\ omap present_part t1 = []
    /\ omap present_part t2 = List.filter (fun j => is_some (slots j)) (seq 0 n)
    /\ (forall i, i < n ->
          omap (guard_call_of i) t1 = [EvSemWait i]
          /\ omap (guard_call_of i) t2 = [EvSemPost i])
    /\ omap sem_wait_part t1 = seq 0 n
    /\ omap sem_post_part t2 = seq 0 n
    /\ (forall m, parts s2 !! m = parts s !! m).
Proof.
  intros Hn Hlen Hlock Hrc Hfree outs slots.
  destruct (wp_elim _ _ _ (wp_Prepare_success E pic date s n Hn Hlen Hlock Hrc Hfree))
    as (t1 & [] & s1 & Hrun1 & Ht1 & ps1 & pics1 & Hs1 & Hl1 & Hl2 & Hlt1 & Hge1 & Hpics1).
  fold outs in Ht1, Hpics1. fold slots in Hpics1.
  assert (Hp1 : forall j p, j < n -> parts s !! j = Some p ->
            parts s1 !! j = Some (part_with_lock (pred (lock p)) p)).
  { intros j p Hj Hp. rewrite Hs1. by apply Hlt1. }
  assert (Hparts1 : forall j, j < n -> is_Some (parts s1 !! j)).
  { intros j Hj. destruct (Hfree j Hj) as (p & Hp & _). rewrite (Hp1 j p); eauto. }
  assert (Hslots1 : forall j, j < n -> pictures s1 !! j = Some (slots j)).
  { intros j Hj. rewrite Hs1. by apply Hpics1. }
  assert (Hn1 : i_output s1 = n) by (by rewrite Hs1).
  destruct (wp_elim _ _ _ (wp_Display s1 n slots Hn1 Hslots1 Hparts1))
    as (t2 & [] & s2 & Hrun2 & Ht2 & ps2 & Hs2 & Hl3 & Hlt2 & Hge2).
  exists t1, s1, t2, s2. split; [done|]. split; [done|].
  split; [|split; [|split; [|split; [|split; [|split; [|split; [|split]]]]]]].
  - intros i p d Hi Hp Hd. rewrite omap_app, Ht1, Ht2, omap_app. simpl.
    rewrite !(omap_flat_map_seq_at _ _ n i); try done.
    + unfold prepare_part_trace, display_part_trace.
      rewrite Hp, (Hp1 i p Hi Hp). simpl. rewrite Hd.
      destruct (slots i); simpl; by rewrite !decide_True.
    + intros j Hj. by apply renderer_calls_display_other.
    + intros j Hj. by apply renderer_calls_prepare_other.
  - rewrite Ht1, omap_app, omap_flat_map_seq. simpl.
    rewrite (flat_map_seq_ext _ (fun j => [j])); [apply flat_map_seq_singleton|].
    intros j Hj. destruct (Hfree j Hj) as (p & Hp & _).
    unfold prepare_part_trace. by rewrite Hp.
  - rewrite Ht2, omap_flat_map_seq.
    rewrite (flat_map_seq_ext _ (fun _ => [])); [apply flat_map_seq_nil|].
    intros j Hj. unfold display_part_trace.
    destruct (parts s1 !! j); [|done]. by destruct (slots j).
  - rewrite Ht1, omap_app, omap_flat_map_seq. simpl.
    rewrite (flat_map_seq_ext _ (fun _ => [])); [apply flat_map_seq_nil|].
    intros j Hj. unfold prepare_part_trace. by destruct (parts s !! j).
  - rewrite Ht2, omap_flat_map_seq, <- flat_map_seq_filter.
    apply flat_map_seq_ext. intros j Hj.
    destruct (Hparts1 j Hj) as [p Hp]. unfold display_part_trace.
    rewrite Hp. by destruct (slots j).
  - intros i Hi. destruct (Hfree i Hi) as (p & Hp & _). split.
    + rewrite Ht1, omap_app. simpl.
      rewrite (omap_flat_map_seq_at _ _ n i); try done.
      * unfold prepare_part_trace. rewrite Hp. simpl. by rewrite decide_True.
      * intros j Hj. by apply guard_calls_prepare_other.
    + rewrite Ht2, (omap_flat_map_seq_at _ _ n i); try done.
      * unfold display_part_trace. rewrite (Hp1 i p Hi Hp).
        destruct (slots i); simpl; by rewrite decide_True.
      * intros j Hj. by apply guard_calls_display_other.
  - rewrite Ht1, omap_app, omap_flat_map_seq. simpl.
    rewrite (flat_map_seq_ext _ (fun j => [j])); [apply flat_map_seq_singleton|].
    intros j Hj. destruct (Hfree j Hj) as (p & Hp & _).
    unfold prepare_part_trace. by rewrite Hp.
  - rewrite Ht2, omap_flat_map_seq.
    rewrite (flat_map_seq_ext _ (fun j => [j])); [apply flat_map_seq_singleton|].
    intros j Hj. destruct (Hparts1 j Hj) as [p Hp].
    unfold display_part_trace. rewrite Hp. by destruct (slots j).
  - intros m. rewrite Hs2. cbn [parts with_parts].
    destruct (decide (m < n)) as [Hm|Hm].
    + destruct (Hfree m Hm) as (p & Hp & Hl).
      rewrite (Hlt2 m _ Hm (Hp1 m p Hm Hp)), Hp.
      destruct p as [pw pd [|l] pwd pht]; simpl in *; [lia|done].
    + rewrite Hge2 by lia. rewrite Hs1. cbn [parts with_parts with_pictures].
      apply Hge1. lia.
Qed.

(** * What happens under the mutex, and what does not *)

Section MutexGuard.

Variable want : bool.
Variable touches : event -> bool.

Lemma accessed_when_app h t1 t2 :
  accessed_when want touches h (t1 ++ t2) =
    accessed_when want touches h t1
      && accessed_when want touches (held_after h t1) t2.
Proof.
  revert h. induction t1 as [|e t1 IH]; intros h; [done|].
  destruct e; simpl; rewrite ?IH; try done; by rewrite andb_assoc.
Qed.

Lemma held_after_app h t1 t2 :
  held_after h (t1 ++ t2) = held_after (held_after h t1) t2.
Proof.
  revert h. induction t1 as [|e t1 IH]; intros h; [done|].
  destruct e; simpl; by rewrite ?IH.
Qed.

Lemma gspec_bind {A B} h h1 h2 (m : M A) (f : A -> M B) :
  gspec want touches h h1 m -> (forall a, gspec want touches h1 h2 (f a)) ->
  gspec want touches h h2 (bind m f).
Proof.
  intros Hm Hf s. unfold bind. destruct (Hm s) as [Hg Hh].
  destruct (m s) as [t1 [a s1|why s1]]; simpl in *; [|split; [done|discriminate]].
  destruct (Hf a s1) as [Hg2 Hh2].
  destruct (f a s1) as [t2 r]; simpl in *.
  rewrite accessed_when_app, held_after_app, Hg, (Hh a s1 eq_refl). split; [done|].
  intros b s2 Hr. by apply (Hh2 b s2).
Qed.

Lemma gspec_ret {A} h (a : A) : gspec want touches h h (ret a).
Proof. intros s. simpl. auto. Qed.

Lemma gspec_fail {A} h h' why : gspec want touches h h' (@fail A why).
Proof. intros s. simpl. split; [done|discriminate]. Qed.

Lemma gspec_get {A} h (f : state -> A) : gspec want touches h h (get f).
Proof. intros s. simpl. auto. Qed.

Lemma gspec_modify h f : gspec want touches h h (modify f).
Proof. intros s. simpl. auto. Qed.

(** An event that is neither selected nor a mutex operation. *)
Lemma gspec_emit h e :
  touches e = false -> is_mutex_event e = false -> gspec want touches h h (emit e).
Proof.
  intros Ht Hm s. simpl. destruct e; simpl in *; rewrite ?Ht; try done.
Qed.

(** Any event but a mutex operation, the mutex being as wanted. *)
Lemma gspec_emit_at e :
  is_mutex_event e = false -> gspec want touches want want (emit e).
Proof.
  intros Hm s. simpl.
  destruct e; simpl in *; try done; destruct (touches _), want; done.
Qed.

Lemma gspec_get_part h i : gspec want touches h h (get_part i).
Proof. intros s. unfold get_part. destruct (parts s !! i); simpl; auto. Qed.

Lemma gspec_set_part h i p : gspec want touches h h (set_part i p).
Proof. intros s. unfold set_part. case_bool_decide; simpl; auto. Qed.

Lemma gspec_load_mouse_event h e : gspec want touches h h (load_mouse_event e).
Proof. intros s. unfold load_mouse_event. destruct (mouse_events s !! e); simpl; auto. Qed.

Lemma gspec_slot_load h i :
  touches (EvSlotLoad i) = false -> gspec want touches h h (slot_load i).
Proof.
  intros Ht s. unfold slot_load. destruct (pictures s !! i); simpl; rewrite ?Ht; auto.
Qed.

Lemma gspec_slot_load_at i : gspec want touches want want (slot_load i).
Proof.
  intros s. unfold slot_load. destruct (pictures s !! i); simpl; [|auto].
  destruct (touches _), want; auto.
Qed.

Lemma gspec_slot_store h i v :
  touches (EvSlotStore i v) = false -> gspec want touches h h (slot_store i v).
Proof.
  intros Ht s. unfold slot_store. case_bool_decide; simpl; rewrite ?Ht; auto.
Qed.

Lemma gspec_slot_store_at i v : gspec want touches want want (slot_store i v).
Proof.
  intros s. unfold slot_store. case_bool_decide; simpl; [|auto].
  destruct (touches _), want; auto.
Qed.

Lemma gspec_for_from h body n :
  (forall j, gspec want touches h h (body j)) ->
  forall i, gspec want touches h h (for_from i n body).
Proof.
  intros Hb. induction n as [|n IH]; intros i; simpl.
  - apply gspec_ret.
  - eapply gspec_bind; [apply Hb|]. intros _. apply IH.
Qed.

Lemma gspec_mutex_lock h : gspec want touches h true vlc_mutex_lock.
Proof.
  intros s. unfold vlc_mutex_lock, bind, get, modify, emit, fail.
  destruct (sys_lock s); simpl; [split; [done|discriminate]|auto].
Qed.

Lemma gspec_mutex_unlock h : gspec want touches h false vlc_mutex_unlock.
Proof. intros s. unfold vlc_mutex_unlock, bind, modify, emit. simpl. auto. Qed.

End MutexGuard.

Create HintDb splitter_defs.
#[local] Hint Unfold
  vlc_sem_wait vlc_sem_post vlc_sem_init video_splitter_Filter
  vout_display_Prepare vlc_vidsplit_Prepare vlc_vidsplit_Display
  vlc_vidsplit_Control take_display delete_display vlc_vidsplit_Close
  vlc_vidsplit_window_Resized vlc_vidsplit_window_Closed
  vlc_vidsplit_window_MouseEvent vlc_vidsplit_window_KeyboardEvent
  video_splitter_CreateWindow open_part for_loop : splitter_defs.

(** Decomposition of a function body along its control flow. *)
Ltac gs :=
  lazymatch goal with
  | |- gspec _ _ _ _ (bind _ _) => eapply gspec_bind; [gs | intros; gs]
  | |- gspec _ _ _ _ (ret _) => apply gspec_ret
  | |- gspec _ _ _ _ (fail _) => apply gspec_fail
  | |- gspec _ _ _ _ (get _) => apply gspec_get
  | |- gspec _ _ _ _ (modify _) => apply gspec_modify
  | |- gspec _ _ _ _ (emit _) =>
      first [ apply gspec_emit; reflexivity | apply gspec_emit_at; reflexivity ]
  | |- gspec _ _ _ _ (get_part _) => apply gspec_get_part
  | |- gspec _ _ _ _ (set_part _ _) => apply gspec_set_part
  | |- gspec _ _ _ _ (slot_load _) =>
      first [ apply gspec_slot_load; reflexivity | apply gspec_slot_load_at ]
  | |- gspec _ _ _ _ (slot_store _ _) =>
      first [ apply gspec_slot_store; reflexivity | apply gspec_slot_store_at ]
  | |- gspec _ _ _ _ (load_mouse_event _) => apply gspec_load_mouse_event
  | |- gspec _ _ _ _ vlc_mutex_lock => apply gspec_mutex_lock
  | |- gspec _ _ _ _ vlc_mutex_unlock => apply gspec_mutex_unlock
  | |- gspec _ _ _ _ (for_from _ _ _) => apply gspec_for_from; intros; gs
  | |- gspec _ _ _ _ (match ?x with _ => _ end) => destruct x; gs
  | |- _ => idtac
  end.

(** The two disciplines of the module: the splitter is entered under the
    mutex, the cells of [pictures] are read and written outside it.  Every
    function starts and ends with the mutex released. *)
Section Disciplines.

Variable want : bool.
Variable touches : event -> bool.
Hypothesis discipline :
  (want = true /\ touches = touches_engine)
  \/ (want = false /\ touches = is_slot_access).

Ltac by_discipline :=
  destruct discipline as [[-> ->]|[-> ->]]; autounfold with splitter_defs; gs.

Lemma gspec_Close : gspec want touches false false vlc_vidsplit_Close.
Proof. by_discipline. Qed.

Lemma gspec_Display : gspec want touches false false vlc_vidsplit_Display.
Proof. by_discipline. Qed.

Lemma gspec_Prepare E pic date :
  gspec want touches false false (vlc_vidsplit_Prepare E pic date).
Proof. by_discipline. Qed.

Lemma gspec_Resized i w ht cb :
  gspec want touches false false (vlc_vidsplit_window_Resized i w ht cb).
Proof. by_discipline. Qed.

Lemma gspec_Closed i : gspec want touches false false (vlc_vidsplit_window_Closed i).
Proof. by_discipline. Qed.

Lemma gspec_MouseEvent E i e :
  gspec want touches false false (vlc_vidsplit_window_MouseEvent E i e).
Proof. by_discipline. Qed.

Lemma gspec_KeyboardEvent i key :
  gspec want touches false false (vlc_vidsplit_window_KeyboardEvent i key).
Proof. by_discipline. Qed.

Lemma gspec_Control E query :
  gspec want touches false false (vlc_vidsplit_Control E query).
Proof. by_discipline. Qed.

Lemma gspec_open_part E i : gspec want touches false false (open_part E i).
Proof.
  pose proof gspec_Close as HClose.
  destruct discipline as [[-> ->]|[-> ->]];
    unfold open_part, video_splitter_CreateWindow, vlc_sem_init, vlc_sem_wait,
      vlc_sem_post; gs; apply HClose.
Qed.

Lemma gspec_open_parts E n : forall i, gspec want touches false false (open_parts E i n).
Proof.
  induction n as [|n IH]; intros i; simpl.
  - gs.
  - eapply gspec_bind; [apply gspec_open_part|]. intros [rc|]; [gs | apply IH].
Qed.

Lemma gspec_Open E : gspec want touches false false (vlc_vidsplit_Open E).
Proof.
  pose proof gspec_Close as HClose. pose proof (gspec_open_parts E) as Hparts.
  destruct discipline as [[-> ->]|[-> ->]];
    unfold vlc_vidsplit_Open; gs; first [apply HClose | apply Hparts].
Qed.

Lemma gspec_entry E c s : accessed_when want touches false (entry_trace E c s) = true.
Proof.
  destruct c; unfold entry_trace, trace_of.
  - apply gspec_Open.
  - apply gspec_Prepare.
  - apply gspec_Display.
  - apply gspec_Control.
  - apply gspec_Close.
  - apply gspec_Resized.
  - apply gspec_Closed.
  - apply gspec_MouseEvent.
  - apply gspec_KeyboardEvent.
Qed.

End Disciplines.

(** * Construction and its rollback *)

Lemma wp_self {A} (m : M A) (Q : list event -> A -> state -> Prop) s :
  wp m Q s -> wp m (fun t a s' => m s = (t, Done a s') /\ Q t a s') s.
Proof.
  unfold wp. destruct (m s) as [t [a s'|why s']]; auto.
Qed.

Lemma built_part_lock E j p : built_part E j = Some p -> lock p = 1.
Proof.
  unfold built_part. destruct (window_New E j) as [wh|]; [|done].
  destruct (_ =? _)%Z; [|done]. destruct (display_New _ _ _ _ _); [|done].
  by intros [= <-].
Qed.

Lemma built_upto_free E i s : built_upto E i (parts s) -> parts_free i s.
Proof.
  intros Hb j Hj. destruct (Hb j Hj) as [[p Hp] Hl].
  exists p. split; [congruence|]. rewrite (built_part_lock E j p Hp). lia.
Qed.

(** A turn that obtains both the window and the display. *)
Lemma wp_open_part_built E i p s :
  i < length (parts s) -> built_part E i = Some p ->
  wp (open_part E i)
     (fun t r s' =>
        r = None /\ t = open_part_trace E i
        /\ s' = with_parts (<[i:=p]> (parts s)) s) s.
Proof.
  intros Hi Hb. destruct (lookup_lt_is_Some_2 _ _ Hi) as [p0 Hp0].
  revert Hb. unfold built_part, open_part_trace, open_part, vlc_sem_init,
    video_splitter_CreateWindow.
  destruct (window_New E i) as [wh|] eqn:Hw; [|done].
  destruct (window_Enable E i wh =? 0)%Z eqn:He; [|done].
  destruct (display_New E i wh 1%N 1%N) as [dh|] eqn:Hd; [|done].
  intros [= <-]. wp_go. rewrite Hd. wp_go.
  split; [done|]. split; [done|]. by rewrite !list_insert_insert_eq.
Qed.

Lemma close_trace_ext look1 look2 n :
  (forall j, j < n -> look1 j = look2 j) ->
  close_trace look1 n = close_trace look2 n.
Proof.
  intros H. unfold close_trace. f_equal. apply flat_map_seq_ext.
  intros j Hj. unfold close_part_trace. by rewrite (H j Hj).
Qed.

(** The rollback at the end of a failed turn: [vlc_vidsplit_Close] runs
    with the count at [i], on parts below [i] that the turn has left as
    they were in [s0]. *)
Lemma wp_Close_rollback i s0 s (Q : list event -> unit -> state -> Prop) :
  parts_free i s0 ->
  (forall j, j < i -> parts s !! j = parts s0 !! j) ->
  i_output s = i ->
  (forall t s',
     vlc_vidsplit_Close s = (t, Done tt s') ->
     t = close_trace (fun j => parts s0 !! j) i ->
     (exists ps', s' = with_parts ps' s) ->
     Q t tt s') ->
  wp vlc_vidsplit_Close Q s.
Proof.
  intros Hfree Hsame Hn HQ.
  eapply wp_mono.
  - apply wp_self, (wp_Close s i); [done|].
    intros j Hj. rewrite (Hsame j Hj). by apply Hfree.
  - intros t [] s' (Hrun & Ht & ps' & Hs' & _). apply HQ; [done| |by exists ps'].
    rewrite Ht. apply close_trace_ext. intros j Hj. by apply Hsame.
Qed.

Ltac rollback_step i s :=
  wp_go;
  apply (wp_Close_rollback i s);
    [ done
    | intros ? ?; cbn [parts with_parts with_i_output];
      by rewrite ?list_lookup_insert_ne by lia
    | reflexivity
    | intros t s' Hrun Ht [ps' Hs']; wp_go;
      split; [done|]; eexists _, t, ps';
      split; [simpl; by rewrite ?app_nil_r|];
      split; [|split; [exact Hrun|split; [exact Ht|by rewrite Hs']]];
      reflexivity ].

(** A turn that fails to obtain the window or the display. *)
Lemma wp_open_part_failed E i s :
  i < length (parts s) -> built_part E i = None -> parts_free i s ->
  wp (open_part E i)
     (fun t r s' =>
        r = Some (VLC_EGENERIC E)
        /\ exists s_mid t_close ps',
             t = open_part_trace E i ++ t_close
             /\ i_output s_mid = i
             /\ vlc_vidsplit_Close s_mid = (t_close, Done tt s')
             /\ t_close = close_trace (fun j => parts s !! j) i
             /\ s' = with_parts ps' (with_i_output i s)) s.
Proof.
  intros Hi Hb Hfree. destruct (lookup_lt_is_Some_2 _ _ Hi) as [p0 Hp0].
  revert Hb. unfold built_part, open_part_trace, open_part, vlc_sem_init,
    video_splitter_CreateWindow.
  destruct (window_New E i) as [wh|] eqn:Hw.
  - destruct (window_Enable E i wh =? 0)%Z eqn:He.
    + destruct (display_New E i wh 1%N 1%N) as [dh|] eqn:Hd; [done|].
      intros _. wp_go. rewrite Hd. rollback_step i s.
    + intros _. rollback_step i s.
  - intros _. rollback_step i s.
Qed.

Lemma wp_open_parts E n :
  forall i s,
  length (parts s) = i + n -> built_upto E i (parts s) ->
  wp (open_parts E i n) (open_parts_post E i n s) s.
Proof.
  induction n as [|n IH]; intros i s Hlen Hb; cbn [open_parts].
  - wp_go. unfold open_parts_post. left.
    split; [done|]. split; [intros; lia|]. split; [done|].
    exists (parts s). rewrite with_parts_same. rewrite Nat.add_0_r in *.
    split; [done|]. by split.
  - apply wp_bind. destruct (built_part E i) as [p|] eqn:Hp.
    + eapply wp_mono; [apply (wp_open_part_built E i p); [lia|done]|].
      intros t1 r s1 (-> & -> & ->).
      assert (Hb1 : built_upto E (S i) (<[i:=p]> (parts s))).
      { intros j Hj. destruct (decide (j = i)) as [->|Hne].
        - rewrite Hp. split; [by eexists|]. apply list_lookup_insert_eq. lia.
        - rewrite list_lookup_insert_ne by done. apply Hb. lia. }
      eapply wp_mono.
      * apply (IH (S i) (with_parts (<[i:=p]> (parts s)) s)); [len | done].
      * intros t2 rc s2
          [(-> & Hall & -> & ps' & -> & Hl' & Hb')
          |(k & s_mid & t_close & ps' & Hk & Hbelow & Hk0 & -> & -> & Hmid & Hrun & Hc & ->)].
        -- unfold open_parts_post. left. split; [done|]. split.
           { intros j Hj. destruct (decide (j = i)) as [->|Hne];
               [rewrite Hp; by eexists | apply Hall; lia]. }
           split; [done|]. exists ps'.
           split; [reflexivity|]. split; [lia|].
           by replace (i + S n) with (S i + n) by lia.
        -- unfold open_parts_post. right. exists k, s_mid, t_close, ps'.
           split; [lia|]. split.
           { intros j Hj. destruct (decide (j = i)) as [->|Hne];
               [rewrite Hp; by eexists | apply Hbelow; lia]. }
           split; [done|]. split; [done|]. split.
           { replace (S k - i) with (S (S k - S i)) by lia.
             cbn [seq flat_map]. by rewrite app_assoc. }
           split; [done|]. split; [done|]. split; [done|]. reflexivity.
    + eapply wp_mono;
        [apply (wp_open_part_failed E i s); [lia | done | by apply (built_upto_free E)]|].
      intros t1 r s1 (-> & s_mid & t_close & ps' & -> & Hmid & Hrun & Hc & ->).
      wp_go. unfold open_parts_post. right. exists i, s_mid, t_close, ps'.
      split; [lia|]. split; [intros; lia|]. split; [done|]. split; [done|].
      split.
      { replace (S i - i) with 1 by lia. cbn [seq flat_map].
        by rewrite !app_nil_r. }
      split; [done|]. split; [done|]. split; [|done].
      rewrite Hc. apply close_trace_ext. intros j Hj. by apply Hb.
Qed.

Lemma wp_Open E s : wp (vlc_vidsplit_Open E) (open_post E s) s.
Proof.
  unfold vlc_vidsplit_Open, open_post.
  destruct (cfg_IsWindowed E); [by wp_go|].
  destruct (var_video_splitter E) as [name|]; [|by wp_go].
  destruct (object_create_ok E); cbn [negb]; [|by wp_go].
  wp_go. destruct (module_need E name) as [n|]; [|by wp_go].
  wp_go.
  destruct (malloc_pictures_ok E), (malloc_parts_ok E); cbn [andb negb]; wp_go.
  - eapply wp_mono.
    + apply (wp_open_parts E n 0 (open_allocated E n s)).
      * unfold open_allocated. cbn [parts with_parts]. by rewrite length_replicate.
      * intros j Hj. lia.
    + intros t rc s' H. by exists t.
  - apply (wp_Close_rollback 0 s); [intros j Hj; lia | intros j Hj; lia | done |].
    intros t s' _ -> [ps' ->]. wp_go. split; [done|]. split; [done|]. by eexists _, _.
  - apply (wp_Close_rollback 0 s); [intros j Hj; lia | intros j Hj; lia | done |].
    intros t s' _ -> [ps' ->]. wp_go. split; [done|]. split; [done|]. by eexists _, _.
  - apply (wp_Close_rollback 0 s); [intros j Hj; lia | intros j Hj; lia | done |].
    intros t s' _ -> [ps' ->]. wp_go. split; [done|]. split; [done|]. by eexists _, _.
Qed.

(** ** Accounting of windows and displays over a failed construction *)

Lemma omap_flat_map_seq_pick {A} (f : event -> option A) (g : nat -> list event)
    (X : list A) n j :
  (forall i, omap f (g i) = if decide (i = j) then X else []) ->
  omap f (flat_map g (seq 0 n)) = if decide (j < n) then X else [].
Proof.
  intros Hg. induction n as [|n IH].
  - by rewrite decide_False by lia.
  - rewrite flat_map_seq_S, omap_app, IH, Hg.
    repeat case_decide; subst; try lia; by rewrite ?app_nil_r.
Qed.

Lemma built_part_window E j p :
  built_part E j = Some p -> window p = window_New E j.
Proof.
  unfold built_part. destruct (window_New E j) as [wh|]; [|done].
  destruct (_ =? _)%Z; [|done]. destruct (display_New _ _ _ _ _); [|done].
  by intros [= <-].
Qed.

Lemma built_part_shape E j p :
  built_part E j = Some p ->
  exists wh dh, p = Part (Some wh) (Some dh) 1 1%N 1%N.
Proof.
  unfold built_part. destruct (window_New E j) as [wh|]; [|done].
  destruct (_ =? _)%Z; [|done]. destruct (display_New _ _ _ _ _) as [dh|]; [|done].
  intros [= <-]. by exists wh, dh.
Qed.

Lemma windows_created_open_part E i j :
  omap (window_created_for j) (open_part_trace E i) =
    if decide (i = j) then option_list (window_New E j) else [].
Proof.
  unfold open_part_trace. case_decide as Hij; [subst i|].
  - destruct (window_New E j) as [wh|]; simpl; [rewrite decide_True by done|done].
    destruct (_ =? _)%Z; simpl; [|done]. by destruct (display_New _ _ _ _ _).
  - destruct (window_New E i) as [wh|]; simpl; [rewrite decide_False by done|done].
    destruct (_ =? _)%Z; simpl; [|done]. by destruct (display_New _ _ _ _ _).
Qed.

Lemma windows_deleted_open_part E i j :
  omap (window_deleted_for j) (open_part_trace E i) =
    if decide (i = j)
    then match built_part E j with
         | Some _ => []
         | None => option_list (window_New E j)
         end
    else [].
Proof.
  unfold open_part_trace, built_part. case_decide as Hij; [subst i|].
  - destruct (window_New E j) as [wh|]; simpl; [|done].
    destruct (_ =? _)%Z; simpl; [|by rewrite decide_True].
    destruct (display_New _ _ _ _ _); simpl; by rewrite ?decide_True.
  - destruct (window_New E i) as [wh|]; simpl; [|done].
    destruct (_ =? _)%Z; simpl; [|by rewrite decide_False].
    destruct (display_New _ _ _ _ _); simpl; by rewrite ?decide_False.
Qed.

Lemma windows_deleted_close_part look i j :
  omap (window_deleted_for j) (close_part_trace look i) =
    if decide (i = j) then option_list (look j ≫= window) else [].
Proof.
  unfold close_part_trace. case_decide as Hij; [subst i|].
  - destruct (look j) as [[[w|] [d|] l wd ht]|]; simpl; by rewrite ?decide_True.
  - destruct (look i) as [[[w|] [d|] l wd ht]|]; simpl; by rewrite ?decide_False.
Qed.

Lemma displays_created_open_part E i j :
  omap (display_created_for j) (open_part_trace E i) =
    if decide (i = j) then option_list (built_part E j ≫= display) else [].
Proof.
  unfold open_part_trace, built_part. case_decide as Hij; [subst i|].
  - destruct (window_New E j) as [wh|]; simpl; [|done].
    destruct (_ =? _)%Z; simpl; [|done].
    destruct (display_New _ _ _ _ _); simpl; by rewrite ?decide_True.
  - destruct (window_New E i) as [wh|]; simpl; [|done].
    destruct (_ =? _)%Z; simpl; [|done].
    destruct (display_New _ _ _ _ _); simpl; by rewrite ?decide_False.
Qed.

Lemma displays_deleted_open_part E i j :
  display_deletes j (open_part_trace E i) = [].
Proof.
  unfold open_part_trace, display_deletes.
  destruct (window_New E i) as [wh|]; simpl; [|done].
  destruct (_ =? _)%Z; simpl; [|done]. by destruct (display_New _ _ _ _ _).
Qed.

Lemma close_trace_parts look k :
  Forall (fun j => j < k) (omap event_part (close_trace look k)).
Proof.
  unfold close_trace. rewrite omap_app. apply Forall_app. split; [|by simpl].
  induction k as [|k IH]; [by simpl|].
  rewrite flat_map_seq_S, omap_app. apply Forall_app. split.
  - eapply Forall_impl; [exact IH|]. intros j Hj. simpl in Hj. lia.
  - unfold close_part_trace. destruct (look k) as [p|]; [|by simpl].
    destruct (display p); simpl; repeat constructor.
Qed.

Lemma close_trace_sem_waits look k :
  (forall j, j < k -> is_Some (look j)) ->
  omap sem_wait_part (close_trace look k) = seq 0 k.
Proof.
  intros Hl. unfold close_trace. rewrite omap_app, omap_flat_map_seq. simpl.
  rewrite app_nil_r.
  rewrite (flat_map_seq_ext _ (fun j => [j])); [apply flat_map_seq_singleton|].
  intros j Hj. destruct (Hl j Hj) as [p Hp]. unfold close_part_trace.
  rewrite Hp. by destruct (display p).
Qed.

(** * Properties of construction *)

(** C4.  When every part below [k] is built and part [k] cannot be, the
    function returns [VLC_EGENERIC] after running [vlc_vidsplit_Close] with
    the output count set to [k]; that run deletes the display and the
    window of the parts [0 .. k-1], in order, touches no part at or above
    [k], and releases the splitter; and over the whole run, for
    every part, the windows deleted are the windows created for it, the
    displays deleted are the displays created for it, and there is at most
    one of each. *)
Theorem Open_failure_rolls_back_built_prefix
    (E : collaborators) (s : state) (name : string) (n k : nat) :
  cfg_IsWindowed E = false -> var_video_splitter E = Some name ->
  object_create_ok E = true -> module_need E name = Some n ->
  malloc_pictures_ok E = true -> malloc_parts_ok E = true ->
  k < n -> (forall j, j < k -> is_Some (built_part E j)) -> built_part E k = None ->
  exists t_build s_mid t_close s',
    vlc_vidsplit_Open E s = (t_build ++ t_close, Done (VLC_EGENERIC E) s')
    /\ t_build = [EvObjectCreate true; EvModuleNeed name ORIENT_NORMAL (Some n)]
                   ++ flat_map (open_part_trace E) (seq 0 (S k))
    /\ i_output s_mid = k
    /\ vlc_vidsplit_Close s_mid = (t_close, Done tt s')
    /\ t_close = close_trace (built_part E) k
    /\ i_output s' = k
    /\ omap sem_wait_part t_close = seq 0 k
    /\ Forall (fun j => j < k) (omap event_part t_close)
    /\ (forall j,
          omap (window_created_for j) (t_build ++ t_close)
            = omap (window_deleted_for j) (t_build ++ t_close)
          /\ length (omap (window_created_for j) (t_build ++ t_close)) <= 1)
    /\ (forall j,
          omap (display_created_for j) (t_build ++ t_close)
            = display_deletes j (t_build ++ t_close)
          /\ length (omap (display_created_for j) (t_build ++ t_close)) <= 1).
Proof.
  intros Hw Hname Hobj Hmod Hpics Hparts Hk Hbelow Hfail.
  destruct (wp_elim _ _ _ (wp_Open E s)) as (t & rc & s' & Hrun & Hpost).
  unfold open_post in Hpost.
  rewrite Hw, Hname, Hobj, Hmod, Hpics, Hparts in Hpost. cbn [negb andb] in Hpost.
  destruct Hpost as (t_loop & -> & Hloop).
  destruct Hloop as
    [(_ & Hall & _)
    |(k' & s_mid & t_close & ps' & Hk' & Hbelow' & Hfail' & -> & -> & Hmid & Hclose & Hc & ->)].
  { destruct (Hall k) as [p Hp]; [lia|]. congruence. }
  assert (k' = k) as ->.
  { destruct (decide (k' < k)) as [Hlt|Hge].
    - destruct (Hbelow k' Hlt) as [p Hp]. congruence.
    - destruct (decide (k < k')) as [Hlt|Hge'].
      + destruct (Hbelow' k) as [p Hp]; [lia|]. congruence.
      + lia. }
  replace (S k - 0) with (S k) in * by lia.
  exists ([EvObjectCreate true; EvModuleNeed name ORIENT_NORMAL (Some n)]
            ++ flat_map (open_part_trace E) (seq 0 (S k))), s_mid, t_close,
    (with_parts ps' (with_i_output k (open_allocated E n s))).
  split; [by rewrite Hrun, <- app_assoc|].
  split; [done|]. split; [done|]. split; [done|]. split; [done|]. split; [done|].
  split; [subst t_close; by apply close_trace_sem_waits|].
  split; [subst t_close; apply close_trace_parts|].
  assert (Hwc : forall j,
    omap (window_created_for j)
      (([EvObjectCreate true; EvModuleNeed name ORIENT_NORMAL (Some n)]
          ++ flat_map (open_part_trace E) (seq 0 (S k))) ++ t_close)
    = if decide (j < S k) then option_list (window_New E j) else []).
  { intros j. rewrite !omap_app. cbn [omap list_omap window_created_for app].
    rewrite (omap_flat_map_seq_pick _ _ (option_list (window_New E j)) (S k) j)
      by (intros i; apply windows_created_open_part).
    subst t_close. unfold close_trace. rewrite omap_app.
    rewrite (omap_flat_map_seq_pick _ _ [] k j).
    - simpl. destruct (decide (j < k)); by rewrite !app_nil_r.
    - intros i. unfold close_part_trace. destruct (built_part E i) as [p|]; [|by case_decide].
      destruct (display p); simpl; by case_decide. }
  assert (Hdc : forall j,
    omap (display_created_for j)
      (([EvObjectCreate true; EvModuleNeed name ORIENT_NORMAL (Some n)]
          ++ flat_map (open_part_trace E) (seq 0 (S k))) ++ t_close)
    = if decide (j < S k) then option_list (built_part E j ≫= display) else []).
  { intros j. rewrite !omap_app. cbn [omap list_omap display_created_for app].
    rewrite (omap_flat_map_seq_pick _ _ (option_list (built_part E j ≫= display)) (S k) j)
      by (intros i; apply displays_created_open_part).
    subst t_close. unfold close_trace. rewrite omap_app.
    rewrite (omap_flat_map_seq_pick _ _ [] k j).
    - simpl. destruct (decide (j < k)); by rewrite !app_nil_r.
    - intros i. unfold close_part_trace. destruct (built_part E i) as [p|]; [|by case_decide].
      destruct (display p); simpl; by case_decide. }
  split.
  - intros j. rewrite Hwc. split; [|case_decide; [destruct (window_New E j)|]; simpl; lia].
    rewrite !omap_app. cbn [omap list_omap window_deleted_for app].
    rewrite (omap_flat_map_seq_pick _ _
               (match built_part E j with
                | Some _ => []
                | None => option_list (window_New E j)
                end) (S k) j)
      by (intros i; apply windows_deleted_open_part).
    subst t_close. unfold close_trace. rewrite omap_app.
    rewrite (omap_flat_map_seq_pick _ _ (option_list (built_part E j ≫= window)) k j)
      by (intros i; apply windows_deleted_close_part).
    simpl. rewrite app_nil_r.
    destruct (decide (j < S k)) as [Hj|Hj]; [|by rewrite decide_False by lia].
    destruct (decide (j < k)) as [Hjk|Hjk].
    + destruct (Hbelow j Hjk) as [p Hp]. rewrite Hp. simpl.
      by rewrite (built_part_window E j p Hp).
    + assert (j = k) as -> by lia. rewrite Hfail. by rewrite app_nil_r.
  - intros j. rewrite Hdc.
    split; [|case_decide; [destruct (built_part E j ≫= display)|]; simpl; lia].
    rewrite !display_deletes_app. cbn [display_deletes omap list_omap display_deleted app].
    fold (display_deletes j (flat_map (open_part_trace E) (seq 0 (S k)))).
    unfold display_deletes at 1.
    rewrite (omap_flat_map_seq_pick _ _ [] (S k) j).
    2:{ intros i. pose proof (displays_deleted_open_part E i j) as Hd.
        unfold display_deletes in Hd. rewrite Hd. by case_decide. }
    subst t_close. rewrite display_deletes_close.
    destruct (decide (j < S k)) as [Hj|Hj].
    + destruct (decide (j < k)) as [Hjk|Hjk]; [done|].
      assert (j = k) as -> by lia. by rewrite Hfail.
    + by rewrite decide_False by lia.
Qed.




(** * Properties of the render cycle and of the mutex *)

Lemma parts_free_check n s : parts_free_b n s = true -> parts_free n s.
Proof.
  unfold parts_free_b. rewrite forallb_forall. intros H j Hj.
  specialize (H j). rewrite in_seq in H. specialize (H ltac:(lia)).
  destruct (parts s !! j) as [p|]; [|done].
  exists p. split; [done|]. by apply bool_decide_eq_true in H.
Qed.

(** C1, at a concrete input.  Two parts, semaphores at 1, and a filter that
    fails: [vlc_vidsplit_Prepare] clears the two slots and waits on no
    semaphore, and [vlc_vidsplit_Display] then calls no display but posts
    both semaphores, which end at 2. *)
Theorem Display_posts_after_failed_Prepare :
  let E := example_collaborators 1 prepare_keeps in
  let s := example_state two_parts in
  let s1 := state_after (vlc_vidsplit_Prepare E 5 42) s in
  let s2 := state_after vlc_vidsplit_Display s1 in
  fst (splitter_Filter E 5) <> 0%Z
  /\ vlc_vidsplit_Prepare E 5 42 s =
       ([EvPictureHold 5; EvMutexLock; EvFilter 5; EvMutexUnlock;
         EvSlotStore 0 None; EvSlotStore 1 None], Done tt s1)
  /\ pictures s1 = [None; None]
  /\ vlc_vidsplit_Display s1 =
       ([EvSlotLoad 0; EvSemPost 0; EvSlotLoad 1; EvSemPost 1], Done tt s2)
  /\ lock <$> parts s = [1; 1]
  /\ lock <$> parts s1 = [1; 1]
  /\ lock <$> parts s2 = [2; 2].
Proof. vm_compute. repeat split; done. Qed.

(** C2, at a concrete input.  After the close callback of part 0 has
    cleared its display, a cycle whose filter succeeds still calls
    [vout_display_Prepare] for part 0, with a NULL display. *)
Theorem Prepare_calls_cleared_display :
  let E := example_collaborators 0 prepare_keeps in
  let s1 := state_after (vlc_vidsplit_window_Closed 0) (example_state two_parts) in
  display <$> parts s1 = [None; Some 21]
  /\ fst (splitter_Filter E 5) = 0%Z
  /\ returns (vlc_vidsplit_Prepare E 5 42) s1 = true
  /\ omap (renderer_call_of 0) (trace_of (vlc_vidsplit_Prepare E 5 42) s1)
       = [EvPrepare 0 None (Some 100) 42].
Proof. vm_compute. repeat split; done. Qed.

(** C3 as stated fails: with a filter that fails, [vlc_vidsplit_Prepare]
    clears the slots after it has unlocked the mutex, and
    [vlc_vidsplit_Display] reads them without taking it. *)
Lemma slots_accessed_outside_mutex :
  let E := example_collaborators 1 prepare_keeps in
  let s := example_state two_parts in
  entry_trace E (CallPrepare 5 42) s =
    [EvPictureHold 5; EvMutexLock; EvFilter 5; EvMutexUnlock;
     EvSlotStore 0 None; EvSlotStore 1 None]
  /\ guarded_from touches_shared false (entry_trace E (CallPrepare 5 42) s) = false
  /\ guarded_from touches_shared false (entry_trace E CallDisplay s) = false.
Proof. vm_compute. repeat split; done. Qed.

(** C3, as the code has it.  In every run of every function of the module,
    from any state and whether it returns or not, the splitter is entered
    (filter, which is handed the slots, and mouse) only between a lock and
    the next unlock of the mutex, and each cell of [pictures] is read or
    written only when the function does not hold the mutex. *)
Theorem mutex_covers_engine_not_slots
    (E : collaborators) (c : entry_point) (s : state) :
  guarded_from touches_engine false (entry_trace E c s) = true
  /\ unguarded_from is_slot_access false (entry_trace E c s) = true.
Proof.
  split.
  - apply (gspec_entry true touches_engine). by left.
  - apply (gspec_entry false is_slot_access). by right.
Qed.

(** C5 as stated fails: the filter succeeds and part 0 has a display, but
    the display returns NULL from prepare and gets no present call. *)
Lemma present_skipped_when_prepare_returns_null :
  let E := example_collaborators 0 prepare_drops in
  let s := example_state two_parts in
  let s1 := state_after (vlc_vidsplit_Prepare E 5 42) s in
  fst (splitter_Filter E 5) = 0%Z
  /\ display <$> parts s = [Some 20; Some 21]
  /\ returns (vlc_vidsplit_Prepare E 5 42) s = true
  /\ returns vlc_vidsplit_Display s1 = true
  /\ omap (renderer_call_of 0)
       (trace_of (vlc_vidsplit_Prepare E 5 42) s ++ trace_of vlc_vidsplit_Display s1)
       = [EvPrepare 0 (Some 20) (Some 100) 42]
  /\ count_events (is_present_of 0)
       (trace_of (vlc_vidsplit_Prepare E 5 42) s ++ trace_of vlc_vidsplit_Display s1)
       = 0.
Proof. vm_compute. repeat split; done. Qed.

(** * The theorems at concrete inputs *)

(** C7 on two parts, for a resize of part 0 to 640x480 with an
    acknowledgement: with the semaphore of part 0 free, and with it
    taken. *)
Lemma Resized_applies_size_under_guard_witness :
  (exists s',
     vlc_vidsplit_window_Resized 0 640%N 480%N (Some 7) (example_state two_parts) =
       ([EvSemWait 0] ++ [EvSetSize 0 20 640%N 480%N]
          ++ [EvAck 7 0 640%N 480%N (Part (Some 10) (Some 20) 0 640%N 480%N)]
          ++ [EvSemPost 0],
        Done tt s')
     /\ parts s' !! 0 = Some (Part (Some 10) (Some 20) 1 640%N 480%N)
     /\ (forall j, j <> 0 -> parts s' !! j = parts (example_state two_parts) !! j))
  /\ vlc_vidsplit_window_Resized 0 640%N 480%N (Some 7)
       (example_state [Part (Some 10) (Some 20) 0 1%N 1%N;
                       Part (Some 11) (Some 21) 1 1%N 1%N]) =
       ([], Stuck (BlockedSem 0)
              (example_state [Part (Some 10) (Some 20) 0 1%N 1%N;
                              Part (Some 11) (Some 21) 1 1%N 1%N])).
Proof.
  split.
  - apply (Resized_applies_size_under_guard (example_state two_parts) 0
             (Part (Some 10) (Some 20) 1 1%N 1%N) 640%N 480%N (Some 7));
      [reflexivity | simpl; lia].
  - apply (Resized_applies_size_under_guard
             (example_state [Part (Some 10) (Some 20) 0 1%N 1%N;
                             Part (Some 11) (Some 21) 1 1%N 1%N]) 0
             (Part (Some 10) (Some 20) 0 1%N 1%N) 640%N 480%N (Some 7));
      reflexivity.
Defined.

(** C8 for an event at x = 700 received by the window of part 1. *)
Lemma MouseEvent_forwards_private_copy_witness :
  exists s',
    vlc_vidsplit_window_MouseEvent (example_collaborators 0 prepare_keeps) 1 0
        (example_state two_parts) =
      ([EvMutexLock; EvMouse 1 (MouseEv 0 700%Z 20%Z 0%Z)]
         ++ [EvSendMouseEvent 99 (MouseEv 0 60%Z 20%Z 0%Z)]
         ++ [EvMutexUnlock],
       Done tt s')
    /\ mouse_events s' !! 0 = Some (MouseEv 0 700%Z 20%Z 0%Z)
    /\ s' = example_state two_parts.
Proof.
  apply (MouseEvent_forwards_private_copy (example_collaborators 0 prepare_keeps)
           (example_state two_parts) 1 0 (MouseEv 0 700%Z 20%Z 0%Z));
    reflexivity.
Defined.

(** C6 on two parts, the window of part 0 being closed before teardown. *)
Lemma Closed_then_Close_deletes_display_once_witness :
  exists t1 s1 t2 s2,
    vlc_vidsplit_window_Closed 0 (example_state two_parts) = (t1, Done tt s1)
    /\ vlc_vidsplit_Close s1 = (t2, Done tt s2)
    /\ t1 = [EvSemWait 0; EvSemPost 0] ++ [EvDisplayDelete 0 20]
    /\ parts s1 !! 0 = Some (Part (Some 10) None 1 1%N 1%N)
    /\ display_deletes 0 t2 = []
    /\ display_deletes 0 (t1 ++ t2) = [20].
Proof.
  apply (Closed_then_Close_deletes_display_once (example_state two_parts) 0
           (Part (Some 10) (Some 20) 1 1%N 1%N)).
  - reflexivity.
  - simpl. lia.
  - apply (parts_free_check 2). reflexivity.
Defined.

(** C5 on two parts whose displays return the picture they are given. *)
Lemma render_cycle_success_witness :
  exists t1 s1 t2 s2,
    vlc_vidsplit_Prepare (example_collaborators 0 prepare_keeps) 5 42
        (example_state two_parts) = (t1, Done tt s1)
    /\ vlc_vidsplit_Display s1 = (t2, Done tt s2)
    /\ omap prepare_part t1 = [0; 1]
    /\ omap present_part t2 = [0; 1]
    /\ omap sem_wait_part t1 = [0; 1]
    /\ omap sem_post_part t2 = [0; 1].
Proof.
  destruct (render_cycle_success (example_collaborators 0 prepare_keeps) 5 42
              (example_state two_parts) 2 eq_refl eq_refl eq_refl eq_refl
              (parts_free_check 2 (example_state two_parts) eq_refl))
    as (t1 & s1 & t2 & s2 & H1 & H2 & _ & Hp & _ & _ & Hd & _ & Hw & Hpo & _).
  exists t1, s1, t2, s2. repeat split; assumption.
Defined.

(** C4 for three outputs, the display of output 1 failing. *)
Lemma Open_failure_rolls_back_built_prefix_witness :
  exists t_build s_mid t_close s',
    vlc_vidsplit_Open failing_collaborators (unopened_state (ORIENT_OTHER 3)) =
      (t_build ++ t_close, Done (-1)%Z s')
    /\ i_output s_mid = 1
    /\ vlc_vidsplit_Close s_mid = (t_close, Done tt s')
    /\ omap sem_wait_part t_close = [0].
Proof.
  assert (Hbelow : forall j, j < 1 -> is_Some (built_part failing_collaborators j)).
  { intros j Hj. assert (j = 0) as -> by lia. by eexists. }
  destruct (Open_failure_rolls_back_built_prefix failing_collaborators
              (unopened_state (ORIENT_OTHER 3)) "wall" 3 1
              eq_refl eq_refl eq_refl eq_refl eq_refl eq_refl
              ltac:(lia) Hbelow eq_refl)
    as (tb & sm & tc & s' & Hrun & _ & Hmid & Hclose & _ & _ & Hw & _).
  exists tb, sm, tc, s'. repeat split; assumption.
Defined.



(** * Construction on its own: the window of a part, and every way out of
    [vlc_vidsplit_Open] *)

(** X1.  [video_splitter_CreateWindow] always returns and writes nothing.
    It returns a window only if that window was created and enabled, and
    then has deleted nothing; when it returns NULL, every window it
    created has been deleted. *)
Theorem CreateWindow_enabled_or_deleted (E : collaborators) (i : nat) (s : state) :
  exists t r,
    video_splitter_CreateWindow E i s = (t, Done r s)
    /\ omap (window_created_for i) t = option_list (window_New E i)
    /\ match r with
       | Some wh =>
           window_New E i = Some wh
           /\ window_Enable E i wh = 0%Z
           /\ EvWindowEnable i wh 0%Z ∈ t
           /\ omap (window_deleted_for i) t = []
       | None =>
           omap (window_deleted_for i) t = omap (window_created_for i) t
       end.
Proof.
  unfold video_splitter_CreateWindow, bind, emit, ret.
  destruct (window_New E i) as [wh|] eqn:Hw; simpl.
  - destruct (window_Enable E i wh =? 0)%Z eqn:He; simpl.
    + apply Z.eqb_eq in He. eexists _, _. split; [reflexivity|].
      simpl. rewrite decide_True by done. split; [done|].
      rewrite He. split; [done|]. split; [done|].
      split; [apply list_elem_of_further, list_elem_of_here | done].
    + eexists _, _. split; [reflexivity|].
      simpl. rewrite !decide_True by done. done.
  - eexists _, _. split; [reflexivity|]. done.
Qed.

(** X2.  A call rejected by one of the three initial checks (windowed
    configuration, no splitter name, no memory for [sys]) returns an error
    code with the display exactly as it was: no splitter is loaded and no
    window, display or semaphore is touched. *)
Theorem Open_rejected_changes_nothing (E : collaborators) (s : state) :
  cfg_IsWindowed E = true \/ var_video_splitter E = None
    \/ object_create_ok E = false ->
  exists t rc,
    vlc_vidsplit_Open E s = (t, Done rc s)
    /\ (rc = VLC_EGENERIC E \/ rc = VLC_ENOMEM E)
    /\ (t = [] \/ t = [EvObjectCreate false]).
Proof.
  intros Hrej.
  destruct (wp_elim _ _ _ (wp_Open E s)) as (t & rc & s' & Hrun & Hpost).
  revert Hpost. unfold open_post.
  destruct (cfg_IsWindowed E) eqn:Hw.
  { intros (-> & -> & ->). exists [], (VLC_EGENERIC E). auto. }
  destruct (var_video_splitter E) as [name|] eqn:Hn.
  2:{ intros (-> & -> & ->). exists [], (VLC_EGENERIC E). auto. }
  destruct (object_create_ok E) eqn:Ho; cbn [negb].
  { destruct Hrej as [?|[?|?]]; discriminate. }
  intros (-> & -> & ->). exists [EvObjectCreate false], (VLC_ENOMEM E). auto.
Qed.

(** X3.  When the splitter module cannot be loaded, [vlc_vidsplit_Open]
    cleans the format it copied and deletes the splitter object, without
    [module_unneed], without creating any window or display, and returns
    [VLC_EGENERIC] with [vd->ops] and the parts untouched. *)
Theorem Open_unloadable_splitter (E : collaborators) (s : state) (name : string) :
  cfg_IsWindowed E = false -> var_video_splitter E = Some name ->
  object_create_ok E = true -> module_need E name = None ->
  exists s',
    vlc_vidsplit_Open E s =
      ([EvObjectCreate true; EvModuleNeed name ORIENT_NORMAL None;
        EvFormatClean; EvObjectDelete],
       Done (VLC_EGENERIC E) s')
    /\ vd_ops s' = vd_ops s /\ parts s' = parts s /\ pictures s' = pictures s
    /\ i_output s' = i_output s.
Proof.
  intros Hw Hn Ho Hm.
  destruct (wp_elim _ _ _ (wp_Open E s)) as (t & rc & s' & Hrun & Hpost).
  revert Hpost. unfold open_post. rewrite Hw, Hn, Ho, Hm. cbn [negb].
  intros (-> & -> & ->). exists (open_setup s). by rewrite Hrun.
Qed.

(** X4.  When one of the two arrays cannot be allocated,
    [vlc_vidsplit_Open] sets the output count to 0 and tears down: the
    splitter is released, no part is visited, no window or display is
    created, and the function returns [VLC_ENOMEM] without installing the
    operations. *)
Theorem Open_without_arrays (E : collaborators) (s : state) (name : string) (n : nat) :
  cfg_IsWindowed E = false -> var_video_splitter E = Some name ->
  object_create_ok E = true -> module_need E name = Some n ->
  malloc_pictures_ok E = false \/ malloc_parts_ok E = false ->
  exists s',
    vlc_vidsplit_Open E s =
      ([EvObjectCreate true; EvModuleNeed name ORIENT_NORMAL (Some n);
        EvModuleUnneed; EvFormatClean; EvObjectDelete],
       Done (VLC_ENOMEM E) s')
    /\ i_output s' = 0 /\ vd_ops s' = vd_ops s.
Proof.
  intros Hw Hn Ho Hm Hfail.
  destruct (wp_elim _ _ _ (wp_Open E s)) as (t & rc & s' & Hrun & Hpost).
  revert Hpost. unfold open_post. rewrite Hw, Hn, Ho, Hm. cbn [negb].
  assert (malloc_pictures_ok E && malloc_parts_ok E = false) as ->.
  { destruct Hfail as [-> | ->]; [done | by destruct (malloc_pictures_ok E)]. }
  intros (-> & -> & ps & pics & ->). eexists. by rewrite Hrun.
Qed.

(** The run of [vlc_vidsplit_Open] when every part can be built. *)
Lemma Open_success_run (E : collaborators) (s : state) (name : string) (n : nat) :
  cfg_IsWindowed E = false -> var_video_splitter E = Some name ->
  object_create_ok E = true -> module_need E name = Some n ->
  malloc_pictures_ok E = true -> malloc_parts_ok E = true ->
  (forall j, j < n -> is_Some (built_part E j)) ->
  exists ps',
    vlc_vidsplit_Open E s =
      (open_preamble name n ++ flat_map (open_part_trace E) (seq 0 n),
       Done VLC_SUCCESS
         (with_vd_ops (Some vidsplit_ops) (with_parts ps' (open_allocated E n s))))
    /\ length ps' = n /\ built_upto E n ps'.
Proof.
  intros Hw Hn Ho Hm Hpics Hparts Hall.
  destruct (wp_elim _ _ _ (wp_Open E s)) as (t & rc & s' & Hrun & Hpost).
  revert Hpost. unfold open_post. rewrite Hw, Hn, Ho, Hm, Hpics, Hparts.
  cbn [negb andb].
  intros (t_loop & -> & [(-> & _ & -> & ps' & -> & Hlen & Hb)|Hfail]).
  - exists ps'. by rewrite Hrun.
  - destruct Hfail as (k & _ & _ & _ & Hk & _ & Hnone & _).
    destruct (Hall k) as [p Hp]; [lia|]. congruence.
Qed.

(** X5.  When every window and display can be obtained,
    [vlc_vidsplit_Open] builds the parts in index order and nothing else:
    it returns [VLC_SUCCESS], deletes no window and no display, and leaves
    [n] parts each with its window, its display, size 1x1 and a free
    semaphore, [n] picture slots, and the mutex free. *)
Theorem Open_success_builds_every_part
    (E : collaborators) (s : state) (name : string) (n : nat) :
  cfg_IsWindowed E = false -> var_video_splitter E = Some name ->
  object_create_ok E = true -> module_need E name = Some n ->
  malloc_pictures_ok E = true -> malloc_parts_ok E = true ->
  (forall j, j < n -> is_Some (built_part E j)) ->
  exists t s',
    vlc_vidsplit_Open E s = (t, Done VLC_SUCCESS s')
    /\ t = open_preamble name n ++ flat_map (open_part_trace E) (seq 0 n)
    /\ i_output s' = n /\ length (parts s') = n /\ length (pictures s') = n
    /\ sys_lock s' = false
    /\ (forall j, j < n ->
          exists wh dh, parts s' !! j = Some (Part (Some wh) (Some dh) 1 1%N 1%N)
                        /\ window_New E j = Some wh
                        /\ display_New E j wh 1%N 1%N = Some dh)
    /\ (forall j, omap (window_deleted_for j) t = [] /\ display_deletes j t = []).
Proof.
  intros Hw Hn Ho Hm Hpics Hparts Hall.
  destruct (Open_success_run E s name n Hw Hn Ho Hm Hpics Hparts Hall)
    as (ps' & Hrun & Hlen & Hb).
  eexists _, _. split; [exact Hrun|]. split; [done|].
  cbn [i_output parts pictures sys_lock with_vd_ops with_parts open_allocated
       with_pictures with_i_output open_setup with_fmtp_orientation
       with_splitter_fmt_orientation with_sys_lock].
  split; [done|]. split; [done|]. split; [by rewrite length_replicate|].
  split; [done|]. split.
  - intros j Hj. destruct (Hb j Hj) as [[p Hp] Hl]. rewrite Hl.
    revert Hp. unfold built_part.
    destruct (window_New E j) as [wh|]; [|done].
    destruct (_ =? _)%Z; [|done].
    destruct (display_New E j wh 1%N 1%N) as [dh|] eqn:Hd; [|done].
    intros _. by exists wh, dh.
  - intros j. unfold open_preamble. split.
    + rewrite omap_app. cbn [omap list_omap window_deleted_for app].
      rewrite (omap_flat_map_seq_pick _ _
                 (match built_part E j with
                  | Some _ => []
                  | None => option_list (window_New E j)
                  end) n j)
        by (intros i; apply windows_deleted_open_part).
      case_decide as Hj; [|done]. by destruct (Hall j Hj) as [p ->].
    + unfold display_deletes. rewrite omap_app.
      cbn [omap list_omap display_deleted app].
      rewrite (omap_flat_map_seq_pick _ _ [] n j); [by case_decide|].
      intros i. pose proof (displays_deleted_open_part E i j) as Hd.
      unfold display_deletes in Hd. rewrite Hd. by case_decide.
Qed.

Lemma event_of_part_close_part look i j :
  omap (event_of_part i) (close_part_trace look j) =
    if decide (j = i) then close_part_trace look i else [].
Proof.
  unfold close_part_trace. case_decide as Hij; [subst j|].
  - destruct (look i) as [p|]; [|done].
    destruct (display p); simpl; unfold event_of_part; simpl;
      by rewrite !decide_True.
  - destruct (look j) as [p|]; [|done].
    destruct (display p); simpl; unfold event_of_part; simpl;
      by rewrite !decide_False.
Qed.

Lemma event_of_part_close look n i :
  omap (event_of_part i) (close_trace look n) =
    if decide (i < n) then close_part_trace look i else [].
Proof.
  unfold close_trace. rewrite omap_app. simpl. rewrite app_nil_r.
  apply omap_flat_map_seq_pick. intros j. apply event_of_part_close_part.
Qed.

(** X12.  [vlc_vidsplit_Close], entered with the semaphores of the [n]
    parts free, returns after visiting the parts [0 .. n-1] in order and no
    other: for each it waits and posts, then, outside the semaphore,
    deletes the display if one was bound, and disables then deletes the
    window.  It leaves the display of each visited part empty and every
    semaphore and picture slot as it was, and ends by releasing the
    splitter. *)
Theorem Close_tears_down_each_part (s : state) (n : nat) :
  i_output s = n -> parts_free n s ->
  exists t s',
    vlc_vidsplit_Close s = (t, Done tt s')
    /\ (forall i p, i < n -> parts s !! i = Some p ->
          omap (event_of_part i) t =
            [EvSemWait i; EvSemPost i]
              ++ match display p with Some dh => [EvDisplayDelete i dh] | None => [] end
              ++ [EvWindowDisable i (window p); EvWindowDelete i (window p)]
          /\ parts s' !! i = Some (part_with_display None p))
    /\ (forall i, n <= i ->
          omap (event_of_part i) t = [] /\ parts s' !! i = parts s !! i)
    /\ omap sem_wait_part t = seq 0 n
    /\ (exists t0, t = t0 ++ [EvModuleUnneed; EvFormatClean; EvObjectDelete])
    /\ pictures s' = pictures s.
Proof.
  intros Hn Hfree.
  destruct (wp_elim _ _ _ (wp_Close s n Hn Hfree))
    as (t & [] & s' & Hrun & -> & ps' & -> & Hlen & Hlt & Hge).
  eexists _, _. split; [exact Hrun|]. cbn [parts pictures with_parts].
  split; [|split; [|split; [|split]]].
  - intros i p Hi Hp. rewrite event_of_part_close, decide_True by done.
    unfold close_part_trace. rewrite Hp. split; [done|].
    by rewrite (Hlt i Hi), Hp.
  - intros i Hi. rewrite event_of_part_close, decide_False by lia.
    split; [done|]. by apply Hge.
  - apply close_trace_sem_waits. intros j Hj.
    destruct (Hfree j Hj) as (p & Hp & _). by exists p.
  - by eexists.
  - done.
Qed.

(** X6.  Construction followed by teardown: after a successful
    [vlc_vidsplit_Open], [vlc_vidsplit_Close] returns, and over the two
    runs each of the [n] parts has exactly one window created and that
    window deleted, exactly one display created and that display deleted;
    nothing is created or deleted for an index at or above [n], and every
    display field ends empty. *)
Theorem Open_then_Close_releases_everything
    (E : collaborators) (s : state) (name : string) (n : nat) :
  cfg_IsWindowed E = false -> var_video_splitter E = Some name ->
  object_create_ok E = true -> module_need E name = Some n ->
  malloc_pictures_ok E = true -> malloc_parts_ok E = true ->
  (forall j, j < n -> is_Some (built_part E j)) ->
  exists t1 s1 t2 s2,
    vlc_vidsplit_Open E s = (t1, Done VLC_SUCCESS s1)
    /\ vlc_vidsplit_Close s1 = (t2, Done tt s2)
    /\ (forall j, j < n ->
          exists wh dh,
            omap (window_created_for j) (t1 ++ t2) = [wh]
            /\ omap (window_deleted_for j) (t1 ++ t2) = [wh]
            /\ omap (display_created_for j) (t1 ++ t2) = [dh]
            /\ display_deletes j (t1 ++ t2) = [dh])
    /\ (forall j, n <= j ->
          omap (window_created_for j) (t1 ++ t2) = []
          /\ omap (window_deleted_for j) (t1 ++ t2) = []
          /\ omap (display_created_for j) (t1 ++ t2) = []
          /\ display_deletes j (t1 ++ t2) = [])
    /\ (forall j, j < n -> exists p, parts s2 !! j = Some p /\ display p = None).
Proof.
  intros Hw Hn Ho Hm Hpics Hparts Hall.
  destruct (Open_success_run E s name n Hw Hn Ho Hm Hpics Hparts Hall)
    as (ps' & Hrun & Hlen & Hb).
  set (s1 := with_vd_ops (Some vidsplit_ops) (with_parts ps' (open_allocated E n s)))
    in *.
  assert (Hfree : parts_free n s1) by (by apply (built_upto_free E)).
  destruct (wp_elim _ _ _ (wp_Close s1 n eq_refl Hfree))
    as (t2 & [] & s2 & Hrun2 & Ht2 & ps2 & Hs2 & _ & Hlt & _).
  assert (Ht2' : t2 = close_trace (built_part E) n).
  { rewrite Ht2. apply close_trace_ext. intros j Hj. by apply Hb. }
  clear Ht2. subst t2.
  set (t1 := open_preamble name n ++ flat_map (open_part_trace E) (seq 0 n)) in *.
  assert (Hwc : forall j, omap (window_created_for j) (t1 ++ close_trace (built_part E) n)
            = if decide (j < n) then option_list (window_New E j) else []).
  { intros j. unfold t1, open_preamble, close_trace. rewrite !omap_app.
    cbn [omap list_omap window_created_for app].
    rewrite (omap_flat_map_seq_pick _ _ (option_list (window_New E j)) n j)
      by (intros i; apply windows_created_open_part).
    rewrite (omap_flat_map_seq_pick _ _ [] n j).
    - simpl. case_decide; by rewrite !app_nil_r.
    - intros i. unfold close_part_trace.
      destruct (built_part E i) as [p|]; [|by case_decide].
      destruct (display p); simpl; by case_decide. }
  assert (Hwd : forall j, omap (window_deleted_for j) (t1 ++ close_trace (built_part E) n)
            = if decide (j < n) then option_list (built_part E j ≫= window) else []).
  { intros j. unfold t1, open_preamble, close_trace. rewrite !omap_app.
    cbn [omap list_omap window_deleted_for app].
    rewrite (omap_flat_map_seq_pick _ _
               (match built_part E j with
                | Some _ => []
                | None => option_list (window_New E j)
                end) n j)
      by (intros i; apply windows_deleted_open_part).
    rewrite (omap_flat_map_seq_pick _ _ (option_list (built_part E j ≫= window)) n j)
      by (intros i; apply windows_deleted_close_part).
    simpl. rewrite app_nil_r. case_decide as Hj; [|done].
    by destruct (Hall j Hj) as [p ->]. }
  assert (Hdc : forall j, omap (display_created_for j) (t1 ++ close_trace (built_part E) n)
            = if decide (j < n) then option_list (built_part E j ≫= display) else []).
  { intros j. unfold t1, open_preamble, close_trace. rewrite !omap_app.
    cbn [omap list_omap display_created_for app].
    rewrite (omap_flat_map_seq_pick _ _ (option_list (built_part E j ≫= display)) n j)
      by (intros i; apply displays_created_open_part).
    rewrite (omap_flat_map_seq_pick _ _ [] n j).
    - simpl. case_decide; by rewrite !app_nil_r.
    - intros i. unfold close_part_trace.
      destruct (built_part E i) as [p|]; [|by case_decide].
      destruct (display p); simpl; by case_decide. }
  assert (Hdd : forall j, display_deletes j (t1 ++ close_trace (built_part E) n)
            = if decide (j < n) then option_list (built_part E j ≫= display) else []).
  { intros j. rewrite display_deletes_app, display_deletes_close.
    unfold t1, open_preamble, display_deletes at 1. rewrite omap_app.
    cbn [omap list_omap display_deleted app].
    rewrite (omap_flat_map_seq_pick _ _ [] n j).
    - by case_decide.
    - intros i. pose proof (displays_deleted_open_part E i j) as Hd.
      unfold display_deletes in Hd. rewrite Hd. by case_decide. }
  exists t1, s1, (close_trace (built_part E) n), s2.
  split; [exact Hrun|]. split; [exact Hrun2|]. split; [|split].
  - intros j Hj. destruct (Hall j Hj) as [p Hp].
    destruct (built_part_shape E j p Hp) as (wh & dh & ->).
    exists wh, dh. rewrite Hwc, Hwd, Hdc, Hdd, !decide_True by done.
    rewrite Hp. simpl.
    pose proof (built_part_window E j _ Hp) as Hwin. simpl in Hwin.
    by rewrite <- Hwin.
  - intros j Hj. by rewrite Hwc, Hwd, Hdc, Hdd, !decide_False by lia.
  - intros j Hj. rewrite Hs2. cbn [parts with_parts]. rewrite (Hlt j Hj).
    destruct (Hfree j Hj) as (p & Hp & _). rewrite Hp. by eexists.
Qed.

(** * The render cycle: the failure branch, the span between the two
    phases, and the first cycle after construction *)

Lemma with_sys_lock_free s : sys_lock s = false -> with_sys_lock false s = s.
Proof. destruct s; simpl; by intros ->. Qed.

Lemma omap_seq_option_list {A} (f : nat -> option A) n :
  flat_map (fun j => option_list (f j)) (seq 0 n) = omap f (seq 0 n).
Proof.
  induction n as [|n IH]; [done|].
  rewrite flat_map_seq_S, seq_S, omap_app, IH. simpl. by destruct (f n).
Qed.

(** The failure branch of [vlc_vidsplit_Prepare]. *)
Lemma wp_Prepare_failure (E : collaborators) pic date s n :
  i_output s = n -> length (pictures s) = n -> sys_lock s = false ->
  fst (splitter_Filter E pic) <> 0%Z ->
  wp (vlc_vidsplit_Prepare E pic date)
     (fun t _ s' =>
        t = [EvPictureHold pic; EvMutexLock; EvFilter pic; EvMutexUnlock]
              ++ flat_map (fun j => [EvSlotStore j None]) (seq 0 n)
        /\ s' = with_pictures (replicate n None) s)
     s.
Proof.
  intros Hn Hlen Hlock Hrc.
  unfold vlc_vidsplit_Prepare, video_splitter_Filter.
  wp_go. apply Z.eqb_neq in Hrc. rewrite Hrc. cbn [negb]. wp_go. rewrite Hn, Hlen.
  eapply wp_mono.
  - apply (wp_for_loop
      (fun j t s1 =>
         t = flat_map (fun j => [EvSlotStore j None]) (seq 0 j)
         /\ j <= n
         /\ exists pics1,
              s1 = with_pictures pics1 s
              /\ length pics1 = n
              /\ (forall m, m < j -> pics1 !! m = Some None))).
    + split; [done|]. split; [lia|].
      exists (snd (splitter_Filter E pic) <$> seq 0 n).
      split; [by destruct s; simpl in *; subst|].
      split; [by rewrite length_fmap, length_seq | intros; lia].
    + intros j t s1 Hj (-> & _ & pics1 & -> & Hl & Hlt).
      apply wp_slot_store; [len|]. st_simpl.
      split; [by rewrite flat_map_seq_S|]. split; [lia|].
      exists (<[j:=None]> pics1). split; [reflexivity|]. split; [len|].
      intros m Hm. destruct (decide (m = j)) as [->|Hne]; [by lookup|].
      rewrite list_lookup_insert_ne by done. apply Hlt. lia.
  - intros t u s1 (-> & _ & pics1 & -> & Hl & Hlt).
    split; [done|]. f_equal. apply list_eq. intros m.
    destruct (decide (m < n)) as [Hm|Hm].
    + by rewrite Hlt, lookup_replicate_2.
    + rewrite lookup_ge_None_2 by lia. symmetry.
      apply lookup_replicate_None. lia.
Qed.

(** X8.  A cycle whose filter fails, whatever the number of parts and the
    values of their semaphores: both phases return; the first leaves the
    parts as they are and every slot NULL; over both no semaphore is waited
    on and no display is called; and the second posts the semaphore of
    every part once, so that each ends one above its value. *)
Theorem failed_cycle_posts_every_semaphore
    (E : collaborators) (pic : picture) (date : Z) (s : state) (n : nat) :
  i_output s = n -> length (pictures s) = n -> n <= length (parts s) ->
  sys_lock s = false -> fst (splitter_Filter E pic) <> 0%Z ->
  exists t1 s1 t2 s2,
    vlc_vidsplit_Prepare E pic date s = (t1, Done tt s1)
    /\ vlc_vidsplit_Display s1 = (t2, Done tt s2)
    /\ parts s1 = parts s
    /\ pictures s1 = replicate n None
    /\ omap sem_wait_part (t1 ++ t2) = []
    /\ omap prepare_part (t1 ++ t2) = []
    /\ omap present_part (t1 ++ t2) = []
    /\ omap sem_post_part (t1 ++ t2) = seq 0 n
    /\ (forall m p, m < n -> parts s !! m = Some p ->
          parts s2 !! m = Some (part_with_lock (S (lock p)) p)).
Proof.
  intros Hn Hlen Hparts Hlock Hrc.
  destruct (wp_elim _ _ _ (wp_Prepare_failure E pic date s n Hn Hlen Hlock Hrc))
    as (t1 & [] & s1 & Hrun1 & -> & ->).
  assert (Hslots : forall j, j < n ->
            pictures (with_pictures (replicate n None) s) !! j
              = Some ((fun _ => @None picture) j)).
  { intros j Hj. cbn [pictures with_pictures]. by apply lookup_replicate_2. }
  assert (Hsome : forall j, j < n ->
            is_Some (parts (with_pictures (replicate n None) s) !! j)).
  { intros j Hj. apply lookup_lt_is_Some_2. cbn [parts with_pictures]. lia. }
  destruct (wp_elim _ _ _
              (wp_Display (with_pictures (replicate n None) s) n (fun _ => None)
                 Hn Hslots Hsome))
    as (t2 & [] & s2 & Hrun2 & -> & ps2 & -> & _ & Hlt & _).
  eexists _, _, _, _. split; [exact Hrun1|]. split; [exact Hrun2|].
  split; [done|]. split; [done|].
  assert (Hstores : forall A (f : event -> option A),
            (forall j, f (EvSlotStore j None) = None) ->
            omap f (flat_map (fun j => [EvSlotStore j None]) (seq 0 n)) = []).
  { intros A f Hf. rewrite omap_flat_map_seq.
    rewrite (flat_map_seq_ext _ (fun _ => [])); [apply flat_map_seq_nil|].
    intros j _. simpl. by rewrite Hf. }
  cbn [parts with_pictures with_parts] in *.
  split; [|split; [|split; [|split]]].
  - rewrite !omap_app, Hstores by done. simpl. rewrite omap_flat_map_seq.
    rewrite (flat_map_seq_ext _ (fun _ => [])); [apply flat_map_seq_nil|].
    intros j Hj. unfold display_part_trace. by destruct (parts s !! j).
  - rewrite !omap_app, Hstores by done. simpl. rewrite omap_flat_map_seq.
    rewrite (flat_map_seq_ext _ (fun _ => [])); [apply flat_map_seq_nil|].
    intros j Hj. unfold display_part_trace. by destruct (parts s !! j).
  - rewrite !omap_app, Hstores by done. simpl. rewrite omap_flat_map_seq.
    rewrite (flat_map_seq_ext _ (fun _ => [])); [apply flat_map_seq_nil|].
    intros j Hj. unfold display_part_trace. by destruct (parts s !! j).
  - rewrite !omap_app, Hstores by done. simpl. rewrite omap_flat_map_seq.
    rewrite (flat_map_seq_ext _ (fun j => [j])); [apply flat_map_seq_singleton|].
    intros j Hj. destruct (Hsome j Hj) as [p Hp]. cbn [parts with_pictures] in Hp.
    unfold display_part_trace. by rewrite Hp.
  - intros m p Hm Hp. by apply Hlt.
Qed.

(** X14.  [vlc_vidsplit_Display] on its own, the two arrays being at least
    as long as the output count: it returns without waiting on anything,
    presents exactly the pictures of the slots that are not NULL, in index
    order, releases each of them and no other, posts the semaphore of each
    part once, and writes no slot: the released pictures stay in
    [pictures]. *)
Theorem Display_presents_and_releases_filled_slots (s : state) (n : nat) :
  i_output s = n -> n <= length (pictures s) -> n <= length (parts s) ->
  exists t s',
    vlc_vidsplit_Display s = (t, Done tt s')
    /\ omap presented_picture t = omap (slot_picture s) (seq 0 n)
    /\ omap released_picture t = omap (slot_picture s) (seq 0 n)
    /\ omap sem_wait_part t = []
    /\ omap sem_post_part t = seq 0 n
    /\ pictures s' = pictures s
    /\ (forall m p, m < n -> parts s !! m = Some p ->
          parts s' !! m = Some (part_with_lock (S (lock p)) p)).
Proof.
  intros Hn Hpics Hparts.
  assert (Hslots : forall j, j < n -> pictures s !! j = Some (slot_picture s j)).
  { intros j Hj. unfold slot_picture.
    destruct (lookup_lt_is_Some_2 (pictures s) j) as [v Hv]; [lia|].
    rewrite Hv. by destruct v. }
  assert (Hsome : forall j, j < n -> is_Some (parts s !! j)).
  { intros j Hj. apply lookup_lt_is_Some_2. lia. }
  destruct (wp_elim _ _ _ (wp_Display s n _ Hn Hslots Hsome))
    as (t & [] & s' & Hrun & -> & ps' & -> & _ & Hlt & _).
  eexists _, _. split; [exact Hrun|].
  split; [|split; [|split; [|split; [|split]]]].
  - rewrite omap_flat_map_seq, <- omap_seq_option_list.
    apply flat_map_seq_ext. intros j Hj. destruct (Hsome j Hj) as [p Hp].
    unfold display_part_trace. rewrite Hp. by destruct (slot_picture s j).
  - rewrite omap_flat_map_seq, <- omap_seq_option_list.
    apply flat_map_seq_ext. intros j Hj. destruct (Hsome j Hj) as [p Hp].
    unfold display_part_trace. rewrite Hp. by destruct (slot_picture s j).
  - rewrite omap_flat_map_seq.
    rewrite (flat_map_seq_ext _ (fun _ => [])); [apply flat_map_seq_nil|].
    intros j Hj. unfold display_part_trace.
    destruct (parts s !! j); [|done]. by destruct (slot_picture s j).
  - rewrite omap_flat_map_seq.
    rewrite (flat_map_seq_ext _ (fun j => [j])); [apply flat_map_seq_singleton|].
    intros j Hj. destruct (Hsome j Hj) as [p Hp].
    unfold display_part_trace. rewrite Hp. by destruct (slot_picture s j).
  - done.
  - intros m p Hm Hp. by apply Hlt.
Qed.

(** ** Calls that do not return *)

(** X9.  The semaphores as locks handed from one phase to the other: after
    the success branch of [vlc_vidsplit_Prepare], entered with every
    semaphore at 1, the resize and close callbacks of every part and
    [vlc_vidsplit_Close] do not return and do nothing (no size stored, no
    display resized or deleted) until [vlc_vidsplit_Display] has run,
    which leaves every part, semaphore included, as it was before the
    cycle. *)
Theorem callbacks_wait_for_Display
    (E : collaborators) (pic : picture) (date : Z) (s : state) (n : nat) :
  i_output s = n -> length (pictures s) = n -> sys_lock s = false ->
  fst (splitter_Filter E pic) = 0%Z ->
  (forall j, j < n -> exists p, parts s !! j = Some p /\ lock p = 1) ->
  exists t1 s1 t2 s2,
    vlc_vidsplit_Prepare E pic date s = (t1, Done tt s1)
    /\ (forall i, i < n ->
          (forall w h cb,
             vlc_vidsplit_window_Resized i w h cb s1 = ([], Stuck (BlockedSem i) s1))
          /\ vlc_vidsplit_window_Closed i s1 = ([], Stuck (BlockedSem i) s1))
    /\ (0 < n -> vlc_vidsplit_Close s1 = ([], Stuck (BlockedSem 0) s1))
    /\ vlc_vidsplit_Display s1 = (t2, Done tt s2)
    /\ (forall j, parts s2 !! j = parts s !! j).
Proof.
  intros Hn Hlen Hlock Hrc Hone.
  assert (Hfree : parts_free n s).
  { intros j Hj. destruct (Hone j Hj) as (p & Hp & Hl). exists p. split; [done|lia]. }
  destruct (wp_elim _ _ _ (wp_Prepare_success E pic date s n Hn Hlen Hlock Hrc Hfree))
    as (t1 & [] & s1 & Hrun1 & _ & ps1 & pics1 & Hs1 & _ & _ & Hlt1 & Hge1 & Hpics1).
  assert (Hp1 : forall j p, j < n -> parts s !! j = Some p ->
            parts s1 !! j = Some (part_with_lock (pred (lock p)) p)).
  { intros j p Hj Hp. rewrite Hs1. by apply Hlt1. }
  assert (Htaken : forall i, i < n -> exists q, parts s1 !! i = Some q /\ lock q = 0).
  { intros i Hi. destruct (Hone i Hi) as (p & Hp & Hl).
    eexists. split; [by apply Hp1|]. simpl. by rewrite Hl. }
  assert (Hn1 : i_output s1 = n) by (by rewrite Hs1).
  assert (Hslots1 : forall j, j < n ->
            pictures s1 !! j
              = Some (prepared E date (parts s) (snd (splitter_Filter E pic)) j)).
  { intros j Hj. rewrite Hs1. by apply Hpics1. }
  assert (Hsome1 : forall j, j < n -> is_Some (parts s1 !! j)).
  { intros j Hj. destruct (Htaken j Hj) as (q & Hq & _). by exists q. }
  destruct (wp_elim _ _ _ (wp_Display s1 n _ Hn1 Hslots1 Hsome1))
    as (t2 & [] & s2 & Hrun2 & _ & ps2 & Hs2 & _ & Hlt2 & Hge2).
  exists t1, s1, t2, s2. split; [exact Hrun1|]. split; [|split; [|split]].
  - intros i Hi. destruct (Htaken i Hi) as (q & Hq & Hl). split.
    + intros w h cb. unfold vlc_vidsplit_window_Resized.
      apply bind_stuck. by apply (sem_wait_blocked i q).
    + unfold vlc_vidsplit_window_Closed, take_display.
      apply bind_stuck, bind_stuck. by apply (sem_wait_blocked i q).
  - intros Hpos. destruct (Htaken 0 Hpos) as (q & Hq & Hl).
    unfold vlc_vidsplit_Close.
    rewrite (bind_silent _ _ s1 n) by (unfold get; by rewrite Hn1).
    apply bind_stuck. destruct n as [|n']; [lia|].
    unfold for_loop. cbn [for_from]. unfold take_display.
    apply bind_stuck, bind_stuck, bind_stuck. by apply (sem_wait_blocked 0 q).
  - exact Hrun2.
  - intros m. rewrite Hs2. cbn [parts with_parts].
    destruct (decide (m < n)) as [Hm|Hm].
    + destruct (Hone m Hm) as (p & Hp & Hl).
      rewrite (Hlt2 m _ Hm (Hp1 m p Hm Hp)), Hp.
      destruct p as [pw pd pl pwd pht]; simpl in *. by subst pl.
    + rewrite Hge2 by lia. rewrite Hs1. cbn [parts with_parts with_pictures].
      apply Hge1. lia.
Qed.

(** X7.  Construction establishes what a cycle needs: after a successful
    [vlc_vidsplit_Open], a first cycle whose filter succeeds returns from
    both phases, the display that was created for part [j] is the one
    asked to prepare the picture the filter left in slot [j], and to
    present what it returned when that is not NULL, and the parts end as
    [vlc_vidsplit_Open] left them. *)
Theorem Open_then_first_cycle
    (E : collaborators) (s : state) (name : string) (n : nat)
    (pic : picture) (date : Z) :
  cfg_IsWindowed E = false -> var_video_splitter E = Some name ->
  object_create_ok E = true -> module_need E name = Some n ->
  malloc_pictures_ok E = true -> malloc_parts_ok E = true ->
  (forall j, j < n -> is_Some (built_part E j)) ->
  fst (splitter_Filter E pic) = 0%Z ->
  let outs := snd (splitter_Filter E pic) in
  exists t0 s0 t1 s1 t2 s2,
    vlc_vidsplit_Open E s = (t0, Done VLC_SUCCESS s0)
    /\ vlc_vidsplit_Prepare E pic date s0 = (t1, Done tt s1)
    /\ vlc_vidsplit_Display s1 = (t2, Done tt s2)
    /\ (forall j, j < n ->
          exists dh,
            omap (display_created_for j) t0 = [dh]
            /\ omap (renderer_call_of j) (t1 ++ t2) =
                 [EvPrepare j (Some dh) (outs j) date]
                   ++ match display_Prepare E (Some dh) (outs j) date with
                      | Some f => [EvDisplay j (Some dh) f]
                      | None => []
                      end)
    /\ (forall j, parts s2 !! j = parts s0 !! j).
Proof.
  intros Hw Hname Ho Hm Hpics Hparts Hall Hrc outs.
  destruct (Open_success_run E s name n Hw Hname Ho Hm Hpics Hparts Hall)
    as (ps' & Hrun0 & Hlen0 & Hb).
  set (s0 := with_vd_ops (Some vidsplit_ops) (with_parts ps' (open_allocated E n s)))
    in *.
  assert (Hfree : parts_free n s0) by (by apply (built_upto_free E)).
  assert (Hl0 : length (pictures s0) = n).
  { unfold s0, open_allocated. cbn [pictures with_vd_ops with_parts with_pictures].
    by rewrite length_replicate. }
  destruct (wp_elim _ _ _
              (wp_Prepare_success E pic date s0 n eq_refl Hl0 eq_refl Hrc Hfree))
    as (t1 & [] & s1 & Hrun1 & Ht1 & ps1 & pics1 & Hs1 & _ & _ & Hlt1 & Hge1 & Hpics1).
  fold outs in Ht1, Hpics1.
  assert (Hp1 : forall j p, j < n -> parts s0 !! j = Some p ->
            parts s1 !! j = Some (part_with_lock (pred (lock p)) p)).
  { intros j p Hj Hp. rewrite Hs1. by apply Hlt1. }
  assert (Hsome1 : forall j, j < n -> is_Some (parts s1 !! j)).
  { intros j Hj. destruct (Hfree j Hj) as (p & Hp & _). rewrite (Hp1 j p); eauto. }
  assert (Hslots1 : forall j, j < n ->
            pictures s1 !! j = Some (prepared E date (parts s0) outs j)).
  { intros j Hj. rewrite Hs1. by apply Hpics1. }
  assert (Hn1 : i_output s1 = n) by (by rewrite Hs1).
  destruct (wp_elim _ _ _ (wp_Display s1 n _ Hn1 Hslots1 Hsome1))
    as (t2 & [] & s2 & Hrun2 & Ht2 & ps2 & Hs2 & _ & Hlt2 & Hge2).
  eexists _, s0, t1, s1, t2, s2.
  split; [exact Hrun0|]. split; [exact Hrun1|]. split; [exact Hrun2|]. split.
  - intros j Hj. destruct (Hb j Hj) as [[p Hp] Hpj].
    destruct (built_part_shape E j p Hp) as (wh & dh & ->).
    assert (Hpj0 : parts s0 !! j = Some (Part (Some wh) (Some dh) 1 1%N 1%N))
      by (by rewrite <- Hp).
    exists dh. split.
    + unfold open_preamble. rewrite omap_app.
      cbn [omap list_omap display_created_for app].
      rewrite (omap_flat_map_seq_pick _ _ (option_list (built_part E j ≫= display)) n j)
        by (intros i; apply displays_created_open_part).
      by rewrite decide_True, Hp by done.
    + rewrite omap_app, Ht1, Ht2, omap_app. simpl.
      rewrite !(omap_flat_map_seq_at _ _ n j); try done.
      * unfold prepare_part_trace, display_part_trace, prepared.
        change (parts s0) with ps' in Hpj0. rewrite (Hp1 j _ Hj Hpj0), Hpj0. simpl.
        destruct (display_Prepare E (Some dh) (outs j) date);
          simpl; by rewrite !decide_True.
      * intros i Hi. by apply renderer_calls_display_other.
      * intros i Hi. by apply renderer_calls_prepare_other.
  - intros m. rewrite Hs2. cbn [parts with_parts].
    destruct (decide (m < n)) as [Hmn|Hmn].
    + destruct (Hfree m Hmn) as (p & Hp & Hl).
      rewrite (Hlt2 m _ Hmn (Hp1 m p Hmn Hp)), Hp.
      destruct p as [pw pd [|l] pwd pht]; simpl in *; [lia|done].
    + rewrite Hge2 by lia. rewrite Hs1. cbn [parts with_parts with_pictures].
      apply Hge1. lia.
Qed.

(** * Callbacks after a close, and what every entry point leaves alone *)

(** X10.  The close callback run twice for the same part: the first run
    deletes the display if one was bound, touches no window and no other
    part; the second finds the display empty, only waits and posts, and
    changes nothing. *)
Theorem Closed_twice_deletes_once (s : state) (i : nat) (p : part) :
  parts s !! i = Some p -> 0 < lock p ->
  exists t1 s1,
    vlc_vidsplit_window_Closed i s = (t1, Done tt s1)
    /\ display_deletes i t1 = option_list (display p)
    /\ omap (window_deleted_for i) t1 = []
    /\ parts s1 !! i = Some (part_with_display None p)
    /\ (forall j, j <> i -> parts s1 !! j = parts s !! j)
    /\ vlc_vidsplit_window_Closed i s1 = ([EvSemWait i; EvSemPost i], Done tt s1).
Proof.
  intros Hp Hl.
  assert (Hi : i < length (parts s)) by (by eapply lookup_lt_Some).
  destruct (wp_elim _ _ _ (wp_Closed s i p Hp Hl)) as (t1 & [] & s1 & Hrun1 & -> & Hs1).
  assert (Hp1 : parts s1 !! i = Some (part_with_display None p)).
  { rewrite Hs1. by lookup. }
  assert (Hl1 : 0 < lock (part_with_display None p)) by (by destruct p).
  destruct (wp_elim _ _ _ (wp_Closed s1 i _ Hp1 Hl1)) as (t2 & [] & s2 & Hrun2 & -> & Hs2).
  exists ([EvSemWait i; EvSemPost i]
            ++ match display p with Some dh => [EvDisplayDelete i dh] | None => [] end), s1.
  split; [exact Hrun1|]. split; [|split; [|split; [|split]]].
  - destruct (display p); simpl; by rewrite ?decide_True.
  - by destruct (display p).
  - exact Hp1.
  - intros j Hj. rewrite Hs1. cbn [parts with_parts].
    by rewrite list_lookup_insert_ne.
  - rewrite Hrun2. simpl. f_equal. f_equal. rewrite Hs2.
    rewrite list_insert_id; [apply with_parts_same|].
    rewrite Hp1. by destruct p.
Qed.

(** X11.  A resize that follows the close callback of the same part never
    reaches the deleted display: it stores the size and acknowledges, with
    no call to [vout_display_SetSize], and the part keeps its window and
    stays without a display. *)
Theorem Resized_after_Closed_spares_display
    (s : state) (i : nat) (p : part) (w h : N) (cb : option ack_cb) :
  parts s !! i = Some p -> 0 < lock p ->
  exists t1 s1 s2,
    vlc_vidsplit_window_Closed i s = (t1, Done tt s1)
    /\ vlc_vidsplit_window_Resized i w h cb s1 =
         ([EvSemWait i]
            ++ match cb with
               | Some f => [EvAck f i w h (Part (window p) None (pred (lock p)) w h)]
               | None => []
               end
            ++ [EvSemPost i],
          Done tt s2)
    /\ parts s2 !! i = Some (Part (window p) None (lock p) w h).
Proof.
  intros Hp Hl.
  assert (Hi : i < length (parts s)) by (by eapply lookup_lt_Some).
  destruct (wp_elim _ _ _ (wp_Closed s i p Hp Hl)) as (t1 & [] & s1 & Hrun1 & -> & ->).
  destruct p as [pw pd pl pwd pht]; simpl in *. destruct pl as [|l]; [lia|].
  assert (Hrun2 : exists s2,
    vlc_vidsplit_window_Resized i w h cb
        (with_parts (<[i:=part_with_display None (Part pw pd (S l) pwd pht)]> (parts s)) s) =
      ([EvSemWait i]
         ++ match cb with
            | Some f => [EvAck f i w h (Part pw None l w h)]
            | None => []
            end
         ++ [EvSemPost i], Done tt s2)
    /\ parts s2 !! i = Some (Part pw None (S l) w h)).
  { apply wp_run_unit. unfold vlc_vidsplit_window_Resized.
    destruct cb as [f|]; wp_go; simpl; (split; [reflexivity|]); by lookup. }
  destruct Hrun2 as (s2 & Hrun2 & Hp2).
  eexists _, _, s2. split; [exact Hrun1|]. by split.
Qed.

(** ** The mutex and the semaphores are never nested *)

Lemma gspec_returns {A} want touches h h' (m : M A) s :
  gspec want touches h h' m -> returns m s = true ->
  held_after h (fst (m s)) = h'.
Proof.
  intros Hg Hr. destruct (Hg s) as [_ Hh]. unfold returns in Hr.
  destruct (snd (m s)) as [a s'|why s'] eqn:Hs; [|done]. by apply (Hh a s').
Qed.

(** X13.  Every entry point that returns has released the mutex: in its
    trace the last operation on the mutex, if there is one, is an
    unlock. *)
Theorem mutex_released_on_return (E : collaborators) (c : entry_point) (s : state) :
  entry_returns E c s = true ->
  held_after false (entry_trace E c s) = false.
Proof.
  assert (Hd : (true = true /\ touches_engine = touches_engine)
               \/ (true = false /\ touches_engine = is_slot_access)) by (by left).
  destruct c; unfold entry_returns, entry_trace, trace_of;
    apply (gspec_returns true touches_engine).
  - apply (gspec_Open true touches_engine Hd).
  - apply (gspec_Prepare true touches_engine Hd).
  - apply (gspec_Display true touches_engine Hd).
  - apply (gspec_Control true touches_engine Hd).
  - apply (gspec_Close true touches_engine Hd).
  - apply (gspec_Resized true touches_engine Hd).
  - apply (gspec_Closed true touches_engine Hd).
  - apply (gspec_MouseEvent true touches_engine Hd).
  - apply (gspec_KeyboardEvent true touches_engine Hd).
Qed.

Lemma unnested_Close : gspec false is_sem_event false false vlc_vidsplit_Close.
Proof. autounfold with splitter_defs. gs. Qed.

Lemma unnested_open_part E i : gspec false is_sem_event false false (open_part E i).
Proof.
  unfold open_part, video_splitter_CreateWindow, vlc_sem_init, vlc_sem_wait,
    vlc_sem_post.
  gs; apply unnested_Close.
Qed.

Lemma unnested_open_parts E n :
  forall i, gspec false is_sem_event false false (open_parts E i n).
Proof.
  induction n as [|n IH]; intros i; simpl.
  - gs.
  - eapply gspec_bind; [apply unnested_open_part|]. intros [rc|]; [gs | apply IH].
Qed.

(** X15.  The two kinds of lock are never nested: in every run of every
    entry point, returning or not, each wait, post or initialisation of a
    part's semaphore happens while the function does not hold the
    mutex. *)
Theorem semaphores_used_outside_mutex (E : collaborators) (c : entry_point) (s : state) :
  unguarded_from is_sem_event false (entry_trace E c s) = true.
Proof.
  unfold unguarded_from.
  destruct c; unfold entry_trace, trace_of.
  - assert (H : gspec false is_sem_event false false (vlc_vidsplit_Open E)).
    { unfold vlc_vidsplit_Open.
      gs; first [apply unnested_Close | apply unnested_open_parts]. }
    apply H.
  - assert (H : gspec false is_sem_event false false (vlc_vidsplit_Prepare E pic date)).
    { autounfold with splitter_defs. gs. }
    apply H.
  - assert (H : gspec false is_sem_event false false vlc_vidsplit_Display).
    { autounfold with splitter_defs. gs. }
    apply H.
  - assert (H : gspec false is_sem_event false false (vlc_vidsplit_Control E query)).
    { autounfold with splitter_defs. gs. }
    apply H.
  - apply unnested_Close.
  - assert (H : gspec false is_sem_event false false
                  (vlc_vidsplit_window_Resized i w h cb)).
    { autounfold with splitter_defs. gs. }
    apply H.
  - assert (H : gspec false is_sem_event false false (vlc_vidsplit_window_Closed i)).
    { autounfold with splitter_defs. gs. }
    apply H.
  - assert (H : gspec false is_sem_event false false
                  (vlc_vidsplit_window_MouseEvent E i e)).
    { autounfold with splitter_defs. gs. }
    apply H.
  - assert (H : gspec false is_sem_event false false
                  (vlc_vidsplit_window_KeyboardEvent i key)).
    { autounfold with splitter_defs. gs. }
    apply H.
Qed.

(** ** What construction fixes stays fixed *)

Lemma keeps_ret {A} (a : A) : keeps_shape (ret a).
Proof. by intros s. Qed.

Lemma keeps_fail {A} why : keeps_shape (@fail A why).
Proof. by intros s. Qed.

Lemma keeps_emit e : keeps_shape (emit e).
Proof. by intros s. Qed.

Lemma keeps_get {A} (f : state -> A) : keeps_shape (get f).
Proof. by intros s. Qed.

Lemma keeps_modify g :
  (forall s, shape_of (g s) = shape_of s) -> keeps_shape (modify g).
Proof. intros Hg s. apply Hg. Qed.

Lemma keeps_bind {A B} (m : M A) (f : A -> M B) :
  keeps_shape m -> (forall a, keeps_shape (f a)) -> keeps_shape (bind m f).
Proof.
  intros Hm Hf s. specialize (Hm s). unfold state_after, bind in *.
  destruct (m s) as [t1 [a s1|why s1]]; simpl in *; [|done].
  specialize (Hf a s1). unfold state_after in Hf.
  destruct (f a s1) as [t2 r]; simpl in *. congruence.
Qed.

Lemma keeps_get_part i : keeps_shape (get_part i).
Proof. intros s. unfold state_after, get_part. by destruct (parts s !! i). Qed.

Lemma keeps_set_part i p : keeps_shape (set_part i p).
Proof.
  intros s. unfold state_after, set_part. case_bool_decide; simpl; [|done].
  unfold shape_of. simpl. by rewrite length_insert.
Qed.

Lemma keeps_slot_load i : keeps_shape (slot_load i).
Proof. intros s. unfold state_after, slot_load. by destruct (pictures s !! i). Qed.

Lemma keeps_slot_store i v : keeps_shape (slot_store i v).
Proof.
  intros s. unfold state_after, slot_store. case_bool_decide; simpl; [|done].
  unfold shape_of. simpl. by rewrite length_insert.
Qed.

Lemma keeps_load_mouse_event e : keeps_shape (load_mouse_event e).
Proof.
  intros s. unfold state_after, load_mouse_event. by destruct (mouse_events s !! e).
Qed.

Lemma keeps_for_from body n :
  (forall j, keeps_shape (body j)) -> forall i, keeps_shape (for_from i n body).
Proof.
  intros Hb. induction n as [|n IH]; intros i; simpl.
  - apply keeps_ret.
  - apply keeps_bind; [apply Hb|]. intros _. apply IH.
Qed.

Ltac ks :=
  lazymatch goal with
  | |- keeps_shape (bind _ _) => apply keeps_bind; [ks | intros; ks]
  | |- keeps_shape (ret _) => apply keeps_ret
  | |- keeps_shape (fail _) => apply keeps_fail
  | |- keeps_shape (get _) => apply keeps_get
  | |- keeps_shape (emit _) => apply keeps_emit
  | |- keeps_shape (modify _) =>
      apply keeps_modify; intros; unfold shape_of; simpl;
      rewrite ?length_fmap, ?length_seq; reflexivity
  | |- keeps_shape (get_part _) => apply keeps_get_part
  | |- keeps_shape (set_part _ _) => apply keeps_set_part
  | |- keeps_shape (slot_load _) => apply keeps_slot_load
  | |- keeps_shape (slot_store _ _) => apply keeps_slot_store
  | |- keeps_shape (load_mouse_event _) => apply keeps_load_mouse_event
  | |- keeps_shape (for_from _ _ _) => apply keeps_for_from; intros; ks
  | |- keeps_shape (match ?x with _ => _ end) => destruct x; ks
  | |- _ => idtac
  end.

(** X16.  What construction fixes stays fixed: no run of an entry point
    other than [vlc_vidsplit_Open], returning or blocked, changes the
    output count, the lengths of [pictures] and [parts], [vd->ops], the
    orientations, the window of the display or a caller's mouse event. *)
Theorem shape_fixed_after_construction
    (E : collaborators) (c : entry_point) (s : state) :
  c <> CallOpen -> shape_of (entry_state E c s) = shape_of s.
Proof.
  intros Hc. destruct c; [done|..]; unfold entry_state.
  - assert (H : keeps_shape (vlc_vidsplit_Prepare E pic date)).
    { unfold vlc_vidsplit_Prepare, video_splitter_Filter, vout_display_Prepare,
        vlc_mutex_lock, vlc_mutex_unlock, vlc_sem_wait, for_loop. ks. }
    apply H.
  - assert (H : keeps_shape vlc_vidsplit_Display).
    { unfold vlc_vidsplit_Display, vlc_sem_post, for_loop. ks. }
    apply H.
  - assert (H : keeps_shape (vlc_vidsplit_Control E query)).
    { unfold vlc_vidsplit_Control. ks. }
    apply H.
  - assert (H : keeps_shape vlc_vidsplit_Close).
    { unfold vlc_vidsplit_Close, take_display, delete_display, vlc_sem_wait,
        vlc_sem_post, for_loop. ks. }
    apply H.
  - assert (H : keeps_shape (vlc_vidsplit_window_Resized i w h cb)).
    { unfold vlc_vidsplit_window_Resized, vlc_sem_wait, vlc_sem_post. ks. }
    apply H.
  - assert (H : keeps_shape (vlc_vidsplit_window_Closed i)).
    { unfold vlc_vidsplit_window_Closed, take_display, delete_display,
        vlc_sem_wait, vlc_sem_post. ks. }
    apply H.
  - assert (H : keeps_shape (vlc_vidsplit_window_MouseEvent E i e)).
    { unfold vlc_vidsplit_window_MouseEvent, vlc_mutex_lock, vlc_mutex_unlock. ks. }
    apply H.
  - assert (H : keeps_shape (vlc_vidsplit_window_KeyboardEvent i key)).
    { unfold vlc_vidsplit_window_KeyboardEvent, vlc_mutex_lock, vlc_mutex_unlock. ks. }
    apply H.
Qed.

(** * The further theorems at concrete inputs *)

Lemma example_parts_built :
  forall j, j < 2 -> is_Some (built_part (example_collaborators 0 prepare_keeps) j).
Proof. intros j _. by eexists. Qed.

Lemma example_parts_at_one :
  forall j, j < 2 ->
    exists p, parts (example_state two_parts) !! j = Some p /\ lock p = 1.
Proof.
  intros j Hj. destruct j as [|[|j]]; [by eexists | by eexists | lia].
Qed.

(** X2 for a windowed configuration. *)
Lemma Open_rejected_changes_nothing_witness :
  exists t rc,
    vlc_vidsplit_Open (open_environment true (Some "wall"%string) true (Some 2) true true)
        (unopened_state (ORIENT_OTHER 3)) = (t, Done rc (unopened_state (ORIENT_OTHER 3)))
    /\ (rc = (-1)%Z \/ rc = (-2)%Z)
    /\ (t = [] \/ t = [EvObjectCreate false]).
Proof.
  apply (Open_rejected_changes_nothing
           (open_environment true (Some "wall"%string) true (Some 2) true true)
           (unopened_state (ORIENT_OTHER 3))).
  left. reflexivity.
Defined.

(** X3 for a splitter name that no module answers to. *)
Lemma Open_unloadable_splitter_witness :
  exists s',
    vlc_vidsplit_Open (open_environment false (Some "wall"%string) true None true true)
        (unopened_state (ORIENT_OTHER 3)) =
      ([EvObjectCreate true; EvModuleNeed "wall" ORIENT_NORMAL None;
        EvFormatClean; EvObjectDelete],
       Done (-1)%Z s')
    /\ vd_ops s' = None /\ parts s' = [] /\ pictures s' = [] /\ i_output s' = 0.
Proof.
  apply (Open_unloadable_splitter
           (open_environment false (Some "wall"%string) true None true true)
           (unopened_state (ORIENT_OTHER 3)) "wall"); reflexivity.
Defined.

(** X4 for two outputs, [pictures] not being allocated. *)
Lemma Open_without_arrays_witness :
  exists s',
    vlc_vidsplit_Open (open_environment false (Some "wall"%string) true (Some 2) false true)
        (unopened_state (ORIENT_OTHER 3)) =
      ([EvObjectCreate true; EvModuleNeed "wall" ORIENT_NORMAL (Some 2);
        EvModuleUnneed; EvFormatClean; EvObjectDelete],
       Done (-2)%Z s')
    /\ i_output s' = 0 /\ vd_ops s' = None.
Proof.
  apply (Open_without_arrays
           (open_environment false (Some "wall"%string) true (Some 2) false true)
           (unopened_state (ORIENT_OTHER 3)) "wall" 2);
    first [reflexivity | left; reflexivity].
Defined.

(** X5 for two outputs. *)
Lemma Open_success_builds_every_part_witness :
  exists t s',
    vlc_vidsplit_Open (example_collaborators 0 prepare_keeps)
        (unopened_state (ORIENT_OTHER 3)) = (t, Done VLC_SUCCESS s')
    /\ i_output s' = 2 /\ length (parts s') = 2 /\ length (pictures s') = 2
    /\ sys_lock s' = false.
Proof.
  destruct (Open_success_builds_every_part (example_collaborators 0 prepare_keeps)
              (unopened_state (ORIENT_OTHER 3)) "wall" 2
              eq_refl eq_refl eq_refl eq_refl eq_refl eq_refl example_parts_built)
    as (t & s' & Hrun & _ & Hn & Hp & Hpic & Hl & _).
  exists t, s'. repeat split; assumption.
Defined.

(** X6 for two outputs. *)
Lemma Open_then_Close_releases_everything_witness :
  exists t1 s1 t2 s2,
    vlc_vidsplit_Open (example_collaborators 0 prepare_keeps)
        (unopened_state (ORIENT_OTHER 3)) = (t1, Done VLC_SUCCESS s1)
    /\ vlc_vidsplit_Close s1 = (t2, Done tt s2)
    /\ (forall j, 2 <= j ->
          omap (window_created_for j) (t1 ++ t2) = []
          /\ omap (window_deleted_for j) (t1 ++ t2) = []
          /\ omap (display_created_for j) (t1 ++ t2) = []
          /\ display_deletes j (t1 ++ t2) = []).
Proof.
  destruct (Open_then_Close_releases_everything (example_collaborators 0 prepare_keeps)
              (unopened_state (ORIENT_OTHER 3)) "wall" 2
              eq_refl eq_refl eq_refl eq_refl eq_refl eq_refl example_parts_built)
    as (t1 & s1 & t2 & s2 & H1 & H2 & _ & Hout & _).
  exists t1, s1, t2, s2. repeat split; try assumption; by apply Hout.
Defined.

(** X7 for two outputs and displays that return the picture they get. *)
Lemma Open_then_first_cycle_witness :
  exists t0 s0 t1 s1 t2 s2,
    vlc_vidsplit_Open (example_collaborators 0 prepare_keeps)
        (unopened_state (ORIENT_OTHER 3)) = (t0, Done VLC_SUCCESS s0)
    /\ vlc_vidsplit_Prepare (example_collaborators 0 prepare_keeps) 5 42 s0
         = (t1, Done tt s1)
    /\ vlc_vidsplit_Display s1 = (t2, Done tt s2)
    /\ (forall j, parts s2 !! j = parts s0 !! j).
Proof.
  destruct (Open_then_first_cycle (example_collaborators 0 prepare_keeps)
              (unopened_state (ORIENT_OTHER 3)) "wall" 2 5 42%Z
              eq_refl eq_refl eq_refl eq_refl eq_refl eq_refl example_parts_built
              eq_refl)
    as (t0 & s0 & t1 & s1 & t2 & s2 & H0 & H1 & H2 & _ & Hsame).
  exists t0, s0, t1, s1, t2, s2. repeat split; assumption.
Defined.

(** X8 for two parts and a filter that returns 1. *)
Lemma failed_cycle_posts_every_semaphore_witness :
  exists t1 s1 t2 s2,
    vlc_vidsplit_Prepare (example_collaborators 1 prepare_keeps) 5 42
        (example_state two_parts) = (t1, Done tt s1)
    /\ vlc_vidsplit_Display s1 = (t2, Done tt s2)
    /\ pictures s1 = [None; None]
    /\ omap sem_wait_part (t1 ++ t2) = []
    /\ omap sem_post_part (t1 ++ t2) = [0; 1].
Proof.
  destruct (failed_cycle_posts_every_semaphore (example_collaborators 1 prepare_keeps)
              5 42%Z (example_state two_parts) 2 eq_refl eq_refl)
    as (t1 & s1 & t2 & s2 & H1 & H2 & _ & Hp & Hw & _ & _ & Hpo & _);
    [simpl; lia | reflexivity | simpl; lia |].
  exists t1, s1, t2, s2. repeat split; assumption.
Defined.

(** X9 for two parts. *)
Lemma callbacks_wait_for_Display_witness :
  exists t1 s1 t2 s2,
    vlc_vidsplit_Prepare (example_collaborators 0 prepare_keeps) 5 42
        (example_state two_parts) = (t1, Done tt s1)
    /\ vlc_vidsplit_window_Closed 1 s1 = ([], Stuck (BlockedSem 1) s1)
    /\ vlc_vidsplit_Close s1 = ([], Stuck (BlockedSem 0) s1)
    /\ vlc_vidsplit_Display s1 = (t2, Done tt s2).
Proof.
  destruct (callbacks_wait_for_Display (example_collaborators 0 prepare_keeps)
              5 42%Z (example_state two_parts) 2 eq_refl eq_refl eq_refl eq_refl
              example_parts_at_one)
    as (t1 & s1 & t2 & s2 & H1 & Hcb & Hcl & H2 & _).
  exists t1, s1, t2, s2.
  split; [exact H1|]. split; [apply (Hcb 1); lia|].
  split; [apply Hcl; lia | exact H2].
Defined.

(** X10 for part 0 of two. *)
Lemma Closed_twice_deletes_once_witness :
  exists t1 s1,
    vlc_vidsplit_window_Closed 0 (example_state two_parts) = (t1, Done tt s1)
    /\ display_deletes 0 t1 = [20]
    /\ omap (window_deleted_for 0) t1 = []
    /\ parts s1 !! 0 = Some (Part (Some 10) None 1 1%N 1%N)
    /\ (forall j, j <> 0 -> parts s1 !! j = parts (example_state two_parts) !! j)
    /\ vlc_vidsplit_window_Closed 0 s1 = ([EvSemWait 0; EvSemPost 0], Done tt s1).
Proof.
  apply (Closed_twice_deletes_once (example_state two_parts) 0
           (Part (Some 10) (Some 20) 1 1%N 1%N)); [reflexivity | simpl; lia].
Defined.

(** X11 for part 0 of two, resized to 640x480 without acknowledgement. *)
Lemma Resized_after_Closed_spares_display_witness :
  exists t1 s1 s2,
    vlc_vidsplit_window_Closed 0 (example_state two_parts) = (t1, Done tt s1)
    /\ vlc_vidsplit_window_Resized 0 640%N 480%N None s1 =
         ([EvSemWait 0] ++ [] ++ [EvSemPost 0], Done tt s2)
    /\ parts s2 !! 0 = Some (Part (Some 10) None 1 640%N 480%N).
Proof.
  apply (Resized_after_Closed_spares_display (example_state two_parts) 0
           (Part (Some 10) (Some 20) 1 1%N 1%N) 640%N 480%N None);
    [reflexivity | simpl; lia].
Defined.

(** X12 for two parts. *)
Lemma Close_tears_down_each_part_witness :
  exists t s',
    vlc_vidsplit_Close (example_state two_parts) = (t, Done tt s')
    /\ omap sem_wait_part t = [0; 1]
    /\ pictures s' = [None; None].
Proof.
  destruct (Close_tears_down_each_part (example_state two_parts) 2 eq_refl
              (parts_free_check 2 (example_state two_parts) eq_refl))
    as (t & s' & Hrun & _ & _ & Hw & _ & Hp).
  exists t, s'. repeat split; assumption.
Defined.

(** X13 for a key press. *)
Lemma mutex_released_on_return_witness :
  held_after false
    (entry_trace (example_collaborators 0 prepare_keeps) (CallKeyboardEvent 0 65%N)
       (example_state two_parts)) = false.
Proof.
  apply (mutex_released_on_return (example_collaborators 0 prepare_keeps)
           (CallKeyboardEvent 0 65%N) (example_state two_parts)).
  reflexivity.
Defined.

(** X14 for two parts whose slots were filled by a cycle's first phase. *)
Lemma Display_presents_and_releases_filled_slots_witness :
  exists t s',
    vlc_vidsplit_Display
        (state_after (vlc_vidsplit_Prepare (example_collaborators 0 prepare_keeps) 5 42)
           (example_state two_parts)) = (t, Done tt s')
    /\ omap presented_picture t = [100; 101]
    /\ omap released_picture t = [100; 101]
    /\ pictures s' = [Some 100; Some 101].
Proof.
  destruct (Display_presents_and_releases_filled_slots
              (state_after
                 (vlc_vidsplit_Prepare (example_collaborators 0 prepare_keeps) 5 42)
                 (example_state two_parts)) 2 eq_refl)
    as (t & s' & Hrun & Hpr & Hre & _ & _ & Hpics & _);
    [vm_compute; lia | vm_compute; lia |].
  exists t, s'. repeat split; assumption.
Defined.

(** X16 for the close callback of part 0. *)
Lemma shape_fixed_after_construction_witness :
  shape_of (entry_state (example_collaborators 0 prepare_keeps) (CallClosed 0)
              (example_state two_parts))
    = shape_of (example_state two_parts).
Proof.
  apply (shape_fixed_after_construction (example_collaborators 0 prepare_keeps)
           (CallClosed 0) (example_state two_parts)).
  discriminate.
Defined.

